(** * textTosql: the retrying text-to-SQL pipeline

    A shallow embedding of the pipeline of [agents/nodes.py],
    [agents/graph.py], [database/manager.py] and [utils/validator.py],
    and the properties of its specification checked against it.

    Conventions of the embedding.
    - Python [str] values are [string]s of 7-bit ASCII characters; the
      case mapping and the whitespace class are the ASCII ones.
    - A call that may raise returns a [Res]: [Ok v] or [Raise msg], with
      [msg] the text of [str(e)].
    - The text-generation backend, the database and the scorer are
      collaborators: the n-th call of each is answered by an oracle, and
      every call is recorded in a log, so that "was executed" and "number
      of generation calls" are observable.
    - The graph is the one [create_graph] builds: a node is called with
      the arguments [agents/graph.py] passes it, and its update goes
      through the reducers of [agents/state.py]. The node functions are
      also studied one by one, called with all their parameters. *)

From Stdlib Require Import String Ascii List Bool Arith ZArith Lia QArith Qround
  Qabs.
From Stdlib Require Import DecimalString.
Import ListNotations.
Open Scope string_scope.
Open Scope nat_scope.

Set Implicit Arguments.

(** ** Results of calls that may raise *)

Inductive Res (A : Type) : Type :=
| Ok (v : A)
| Raise (msg : string).
Arguments Ok {A} v.
Arguments Raise {A} msg.

(** ** Python string methods (ASCII) *)

Module PyStr.

(** [str.isspace] on one ASCII character: TAB, LF, VT, FF, CR, the four
    separators FS GS RS US, and the space. *)
Definition is_space (c : ascii) : bool :=
  let n := nat_of_ascii c in
  ((9 <=? n) && (n <=? 13)) || ((28 <=? n) && (n <=? 32)).

Definition upper_char (c : ascii) : ascii :=
  let n := nat_of_ascii c in
  if (97 <=? n) && (n <=? 122) then ascii_of_nat (n - 32) else c.

Definition lower_char (c : ascii) : ascii :=
  let n := nat_of_ascii c in
  if (65 <=? n) && (n <=? 90) then ascii_of_nat (n + 32) else c.

Fixpoint map_chars (f : ascii -> ascii) (s : string) : string :=
  match s with
  | EmptyString => EmptyString
  | String c s' => String (f c) (map_chars f s')
  end.

(** [s.upper()], [s.lower()] *)
Definition upper : string -> string := map_chars upper_char.
Definition lower : string -> string := map_chars lower_char.

(** [s.lstrip()], [s.rstrip()], [s.strip()] *)
Fixpoint lstrip (s : string) : string :=
  match s with
  | EmptyString => EmptyString
  | String c s' => if is_space c then lstrip s' else s
  end.

Fixpoint rstrip (s : string) : string :=
  match s with
  | EmptyString => EmptyString
  | String c s' =>
      match rstrip s' with
      | EmptyString => if is_space c then EmptyString else String c EmptyString
      | r => String c r
      end
  end.

Definition strip (s : string) : string := rstrip (lstrip s).

(** [s.startswith(p)] *)
Fixpoint startswith (s p : string) {struct p} : bool :=
  match p with
  | EmptyString => true
  | String a p' =>
      match s with
      | EmptyString => false
      | String b s' => Ascii.eqb a b && startswith s' p'
      end
  end.

(** [s.startswith((p1, ..., pn))] *)
Definition startswith_any (s : string) (ps : list string) : bool :=
  existsb (startswith s) ps.

(** [p in s] *)
Fixpoint contains (p s : string) : bool :=
  startswith s p ||
  match s with
  | EmptyString => false
  | String _ s' => contains p s'
  end.

Definition of_rev (cs : list ascii) : string :=
  string_of_list_ascii (rev cs).

(** [s.split(sep)] for a non-empty [sep]: [skip] counts the characters
    of a separator still to be passed over, [cur] holds the current
    piece, last character first. *)
Fixpoint split_go (sep s : string) (skip : nat) (cur : list ascii)
  : list string :=
  match s with
  | EmptyString => [of_rev cur]
  | String c s' =>
      match skip with
      | S k => split_go sep s' k cur
      | O =>
          if startswith s sep
          then of_rev cur :: split_go sep s' (String.length sep - 1) []
          else split_go sep s' 0 (c :: cur)
      end
  end.

Definition split (s sep : string) : list string := split_go sep s 0 [].

(** [s.replace(old, new)] for a non-empty [old]. *)
Fixpoint replace_go (old new s : string) (skip : nat) : string :=
  match s with
  | EmptyString => EmptyString
  | String c s' =>
      match skip with
      | S k => replace_go old new s' k
      | O =>
          if startswith s old
          then new ++ replace_go old new s' (String.length old - 1)
          else String c (replace_go old new s' 0)
      end
  end.

Definition replace (s old new : string) : string := replace_go old new s 0.

(** [re.sub(r"[^A-Z]", "", s)] *)
Definition is_AZ (c : ascii) : bool :=
  let n := nat_of_ascii c in (65 <=? n) && (n <=? 90).

Fixpoint keep_AZ (s : string) : string :=
  match s with
  | EmptyString => EmptyString
  | String c s' => if is_AZ c then String c (keep_AZ s') else keep_AZ s'
  end.

(** Truth value of an optional string, as in [if state.get(k)]: an
    absent key, [None] and the empty string are false. *)
Definition truthy (o : option string) : bool :=
  match o with
  | Some (String _ _) => true
  | _ => false
  end.

(** [str(n)] for a natural number *)
Definition str_nat (n : nat) : string :=
  NilEmpty.string_of_uint (Nat.to_uint n).

Definition nl : string := String (ascii_of_nat 10) EmptyString.
Definition fence : string := "```".

End PyStr.
Import PyStr.

(** ** Data shared by the executor and the nodes *)

(** A cell of a fetched row. *)
Inductive Value : Type :=
| VInt (z : Z)
| VStr (s : string)
| VNull.

Definition Row : Type := list Value.

(** The second component of what [execute_query] returns is dynamically
    typed: the fetched rows of a read, or a text (the success message of a
    write, or the error message of a failure). *)
Inductive QData : Type :=
| Rows (rows : list Row)
| Text (s : string).

(** What [execute_query] returns: [(success, data, columns)]. *)
Definition QueryResult : Type := (bool * QData * option (list string))%type.

Definition success (r : QueryResult) : bool := fst (fst r).
Definition data (r : QueryResult) : QData := snd (fst r).
Definition res_columns (r : QueryResult) : option (list string) := snd r.

(** ** [database/manager.py] *)

Module manager.

(** Calls made on the MySQL driver, in order. *)
Inductive Event : Type :=
| EvConnect
| EvCursor
| EvExecute (query : string)
| EvFetchall
| EvCommit
| EvClose.

Section Driver.

(** The state of the server and the network, the connection handles
    and the cursor handles of the driver. *)
Variables Server Conn Cursor : Type.

(** The [mysql.connector] operations the manager uses. *)
Record Driver : Type := {
  mysql_connect : Server -> Res Conn * Server;
  is_connected : Conn -> Server -> bool * Server;
  cursor : Conn -> Server -> Res Cursor * Server;
  execute : Cursor -> string -> Server -> Res unit * Server;
  fetchall : Cursor -> Server -> Res (list Row) * Server;
  (** [cursor.description]: [None] when the statement has no result
      set, else the column names [desc[0]]. *)
  description : Cursor -> Server -> option (list string);
  close : Cursor -> Server -> Res unit * Server;
  commit : Conn -> Server -> Res unit * Server
}.

(** [self.connection], with the world the driver talks to and the
    trace of driver calls. *)
Record Env : Type := {
  connection : option Conn;
  server : Server;
  trace : list Event
}.

Variable drv : Driver.

(** State and exception monad of a method body. *)
Definition M (A : Type) : Type := Env -> Res A * Env.

Definition ret {A} (a : A) : M A := fun e => (Ok a, e).

Definition bind {A B} (m : M A) (f : A -> M B) : M B :=
  fun e =>
    match m e with
    | (Ok a, e') => f a e'
    | (Raise msg, e') => (Raise msg, e')
    end.

(** One driver call: the server moves on and the call is traced. *)
Definition call {A} (ev : Event) (op : Server -> Res A * Server) : M A :=
  fun e =>
    let (r, sv) := op (server e) in
    (r, {| connection := connection e; server := sv;
           trace := trace e ++ [ev] |}).

Notation "x <- m ;; k" := (bind m (fun x => k))
  (at level 61, m at next level, right associativity).
Notation "m ;;; k" := (bind m (fun _ => k))
  (at level 61, right associativity).

(** [connect]: the exception of the driver is caught. *)
Definition connect (e : Env) : bool * Env :=
  match mysql_connect drv (server e) with
  | (Ok c, sv) =>
      (true, {| connection := Some c; server := sv;
                trace := trace e ++ [EvConnect] |})
  | (Raise _, sv) =>
      (false, {| connection := connection e; server := sv;
                 trace := trace e ++ [EvConnect] |})
  end.

(** [if not self.connection or not self.connection.is_connected():
    self.connect()] *)
Definition ensure_connection (e : Env) : Env :=
  match connection e with
  | None => snd (connect e)
  | Some c =>
      let (alive, sv) := is_connected drv c (server e) in
      let e' := {| connection := connection e; server := sv;
                   trace := trace e |} in
      if alive then e' else snd (connect e')
  end.

Definition read_keywords : list string :=
  ["SELECT"; "SHOW"; "DESCRIBE"; "DESC"; "EXPLAIN"].

Definition write_message : string := "Query executed successfully".

(** The body of the [try] of [execute_query]; the body of the inner
    [try], after the reconnection, is the same text. *)
Definition try_body (query query_upper : string) : M QueryResult :=
  fun e =>
    match connection e with
    | None => (Raise "'NoneType' object has no attribute 'cursor'", e)
    | Some conn =>
        (cur <- call EvCursor (cursor drv conn) ;;
         call (EvExecute query) (execute drv cur query) ;;;
         if startswith_any query_upper read_keywords
         then
           results <- call EvFetchall (fetchall drv cur) ;;
           columns <- (fun e' =>
                         match description drv cur (server e') with
                         | Some cols => (Ok cols, e')
                         | None =>
                             (Raise "'NoneType' object is not iterable", e')
                         end) ;;
           call EvClose (close drv cur) ;;;
           ret (true, Rows results, Some columns)
         else
           call EvCommit (commit drv conn) ;;;
           call EvClose (close drv cur) ;;;
           ret (true, Text write_message, None)) e
    end.

Definition connection_dropped (msg : string) : bool :=
  contains "gone away" (lower msg) || contains "lost connection" (lower msg).

(** [execute_query(query)], with [params] left at [None]. *)
Definition execute_query (query : string) (e0 : Env) : QueryResult * Env :=
  let e1 := ensure_connection e0 in
  let query_upper := upper (strip query) in
  match try_body query query_upper e1 with
  | (Ok r, e2) => (r, e2)
  | (Raise msg, e2) =>
      if connection_dropped msg
      then
        let e3 := snd (connect e2) in
        match try_body query query_upper e3 with
        | (Ok r, e4) => (r, e4)
        | (Raise retry_error, e4) => ((false, Text retry_error, None), e4)
        end
      else ((false, Text msg, None), e2)
  end.

End Driver.

End manager.

(** ** Prompts handed to the text-generation backend

    Each chain renders a fixed template; a prompt is identified by its
    template and the values that fill it. *)

Inductive Prompt : Type :=
| GenerateSqlPrompt (schema query : string)
| FixSqlPrompt (error : QData) (sql schema : string)
| FormatAnswerPrompt (question sql results : string) (count : nat)
| ValidationPrompt (query : string).

(** ** [utils/validator.py] *)

Module validator.

(** [re.compile(r"^TRUE$", re.IGNORECASE).match(result)]: [$] matches at
    the end of the text and just before a final line feed. *)
Definition true_pattern_match (result : string) : bool :=
  String.eqb (upper result) "TRUE" || String.eqb (upper result) ("TRUE" ++ nl).

(** [validate_query(query, llm)]; [llm] answers the one call of the
    chain. *)
Definition validate_query (query : string) (llm : Prompt -> Res string)
  : bool * option string :=
  match llm (ValidationPrompt query) with
  | Ok result =>
      let result := strip result in
      if true_pattern_match result then (true, None)
      else if contains "TRUE" (upper result) && (String.length result <? 10)
      then
        let cleaned := keep_AZ (upper result) in
        if String.eqb cleaned "TRUE" then (true, None)
        else (false, Some result)
      else (false, Some result)
  | Raise _ => (true, None)
  end.

(** The matching rule as the specification words it, for comparison with
    [validate_query]: the trimmed output is the token TRUE whatever the
    case, or it contains TRUE whatever the case and has fewer than 10
    characters once every non-letter is removed. *)
Definition is_letter (c : ascii) : bool :=
  is_AZ (upper_char c).

Fixpoint keep_letters (s : string) : string :=
  match s with
  | EmptyString => EmptyString
  | String c s' =>
      if is_letter c then String c (keep_letters s') else keep_letters s'
  end.

Definition spec_accepts (output : string) : bool :=
  let t := strip output in
  String.eqb (upper t) "TRUE"
  || (contains "TRUE" (upper t) && (String.length (keep_letters t) <? 10)).

End validator.

(** ** [agents/state.py] *)

Module state.

(** Entries of the message log. The error branch of the formatter puts
    the class [AIMessage] itself in the list. *)
Inductive Message : Type :=
| HumanMessage (content : string)
| AIMessage (content : string)
| AIMessage_class.

(** The dictionary stored under ["results"]. In the repair path
    ["columns"] may be [None] and ["rows"] a text. *)
Record ResultSet : Type := {
  columns : option (list string);
  rows : QData;
  row_count : nat
}.

(** The score of the evaluator, a number opaque to the pipeline. *)
Definition Score : Type := Q.

(** [AgentState]. An optional field is [None] when its key is absent. *)
Record AgentState : Type := {
  messages : list Message;
  user_query : string;
  schema : string;
  sql_query : option string;
  results : option ResultSet;
  answer : option string;
  error : option string;
  retry_count : nat;
  evaluation_score : option Score
}.

(** The partial dictionary a node returns: [None] for a key it does not
    return. *)
Record Update : Type := {
  u_messages : list Message;
  u_sql_query : option string;
  u_results : option ResultSet;
  u_answer : option string;
  u_error : option string;
  u_retry_count : option nat;
  u_evaluation_score : option Score
}.

Definition override {A} (old : A) (new : option A) : A :=
  match new with
  | Some v => v
  | None => old
  end.

Definition override_opt {A} (old new : option A) : option A :=
  match new with
  | Some v => Some v
  | None => old
  end.

(** [add_messages], the reducer [messages] is annotated with: the
    update's list is appended to the state's, after both are converted
    to message objects. The conversion accepts the instances
    [HumanMessage(...)] and [AIMessage(...)] and raises
    [NotImplementedError] on anything else, in particular on the class
    [AIMessage] itself. *)
Definition is_message (m : Message) : bool :=
  match m with
  | HumanMessage _ | AIMessage _ => true
  | AIMessage_class => false
  end.

(** The text of that exception; what follows it, the type of the
    rejected value, depends on the version of the library. *)
Definition unsupported_message : string := "Unsupported message type".

Definition add_messages (left right : list Message) : Res (list Message) :=
  if forallb is_message left && forallb is_message right
  then Ok (left ++ right)%list
  else Raise unsupported_message.

(** The merge of a node's update into the state: a returned key
    overrides, [messages] goes through its reducer, whose exception is
    the merge's. *)
Definition merge (st : AgentState) (u : Update) : Res AgentState :=
  match add_messages (messages st) (u_messages u) with
  | Raise msg => Raise msg
  | Ok ms =>
      Ok {| messages := ms;
            user_query := user_query st;
            schema := schema st;
            sql_query := override_opt (sql_query st) (u_sql_query u);
            results := override_opt (results st) (u_results u);
            answer := override_opt (answer st) (u_answer u);
            error := override_opt (error st) (u_error u);
            retry_count := override (retry_count st) (u_retry_count u);
            evaluation_score :=
              override_opt (evaluation_score st) (u_evaluation_score u) |}
  end.

End state.
Import state.

(** ** [agents/nodes.py] *)

Module nodes.

(** What the scorer is given. *)
Record Sample : Type := {
  user_input : string;
  response : string;
  reference : string
}.

(** The collaborators: the n-th call of each is answered by its oracle.
    [execute_query] is the method of the [db] object the nodes are
    given. *)
Record Backends : Type := {
  llm : nat -> Prompt -> Res string;
  execute_query : nat -> string -> QueryResult;
  single_turn_score : nat -> Sample -> Res Score
}.

(** Python's rendering of values inside f-strings and [str]. *)
Record PyRepr : Type := {
  str_rows : list Row -> string;
  str_row : Row -> string;
  str_columns : option (list string) -> string;
  str_results : ResultSet -> string;
  format_2f : Score -> string
}.

(** The calls made so far. *)
Record World : Type := {
  llm_log : list Prompt;
  db_log : list string;
  scorer_log : list Sample
}.

Definition empty_world : World :=
  {| llm_log := []; db_log := []; scorer_log := [] |}.

Section Nodes.

Variable py : PyRepr.
Variable ext : Backends.

(** [chain.invoke(...)] *)
Definition invoke (p : Prompt) (w : World) : Res string * World :=
  (llm ext (List.length (llm_log w)) p,
   {| llm_log := llm_log w ++ [p]; db_log := db_log w;
      scorer_log := scorer_log w |}).

(** [db.execute_query(sql)] *)
Definition db_execute_query (sql : string) (w : World)
  : QueryResult * World :=
  (execute_query ext (List.length (db_log w)) sql,
   {| llm_log := llm_log w; db_log := db_log w ++ [sql];
      scorer_log := scorer_log w |}).

(** [scorer.single_turn_score(sample)] *)
Definition score (s : Sample) (w : World) : Res Score * World :=
  (single_turn_score ext (List.length (scorer_log w)) s,
   {| llm_log := llm_log w; db_log := db_log w;
      scorer_log := scorer_log w ++ [s] |}).

(** [str(data)], [len(data)], the truth value of [data] and the items
    of [data[:10]] as f-strings render them. *)
Definition str_data (d : QData) : string :=
  match d with
  | Rows rs => str_rows py rs
  | Text s => s
  end.

Definition len (d : QData) : nat :=
  match d with
  | Rows rs => List.length rs
  | Text s => String.length s
  end.

Definition truthy_data (d : QData) : bool :=
  match d with
  | Rows [] => false
  | Text EmptyString => false
  | _ => true
  end.

Definition items (d : QData) : list string :=
  match d with
  | Rows rs => map (str_row py) rs
  | Text s => map (fun c => String c EmptyString) (list_ascii_of_string s)
  end.

Definition truthy_columns (c : option (list string)) : bool :=
  match c with
  | Some (_ :: _) => true
  | _ => false
  end.

(** The cleanup of a completion, written out twice in the source
    (for the generated and for the repaired SQL):
    [sql = sql.strip()] and, when it starts with a fence,
    [sql.split(fence)[1].replace("sql", "").strip()]. *)
Definition clean_sql (sql : string) : Res string :=
  let sql := strip sql in
  if startswith sql fence
  then
    match nth_error (split sql fence) 1 with
    | Some seg => Ok (strip (replace seg "sql" ""))
    | None => Raise "list index out of range"
    end
  else Ok sql.

Definition generate_sql_node (st : AgentState) (w : World)
  : Update * World :=
  let (r, w1) := invoke (GenerateSqlPrompt (schema st) (user_query st)) w in
  let failed (e : string) : Update :=
    {| u_messages := [AIMessage ("Error : " ++ e)];
       u_sql_query := None; u_results := None; u_answer := None;
       u_error := Some ("SQL generation failed : " ++ e);
       u_retry_count := None; u_evaluation_score := None |} in
  match r with
  | Ok sql =>
      match clean_sql sql with
      | Ok sql =>
          ({| u_messages := [AIMessage "SQL generated"];
              u_sql_query := Some sql; u_results := None;
              u_answer := None; u_error := None; u_retry_count := None;
              u_evaluation_score := None |}, w1)
      | Raise e => (failed e, w1)
      end
  | Raise e => (failed e, w1)
  end.

Definition dangerous : list string :=
  ["DROP"; "DELETE"; "UPDATE"; "INSERT"].

(** The basic injection check of [execute_sql_node]. *)
Definition unsafe_sql (sql : string) : bool :=
  let sql_upper := upper sql in
  negb (startswith sql_upper "SELECT")
  && existsb (fun d => contains d sql_upper) dangerous.

Definition error_update (msg : string) : Update :=
  {| u_messages := []; u_sql_query := None; u_results := None;
     u_answer := None; u_error := Some msg; u_retry_count := None;
     u_evaluation_score := None |}.

(** The end of [execute_sql_node], from [if success:] on, with the
    values [success, data, columns] hold at that point. *)
Definition conclude (retry_count : nat) (r : QueryResult) : Update :=
  let '(success, data, columns) := r in
  if success
  then
    let results :=
      {| columns := if truthy_columns columns then columns else Some [];
         rows := if truthy_columns columns then data else Rows [];
         row_count := if truthy_columns columns then len data else 0 |} in
    {| u_messages := [AIMessage "Query executed successfully"];
       u_sql_query := None; u_results := Some results; u_answer := None;
       u_error := None; u_retry_count := None;
       u_evaluation_score := None |}
  else
    {| u_messages := [AIMessage ("Error: " ++ str_data data)];
       u_sql_query := None; u_results := None; u_answer := None;
       u_error := Some ("Execution failed : " ++ str_data data);
       u_retry_count := Some (retry_count + 1);
       u_evaluation_score := None |}.

Definition execute_sql_node (st : AgentState) (w : World)
  : Update * World :=
  match sql_query st with
  | None | Some EmptyString => (error_update "No SQL to execute", w)
  | Some sql =>
      let retry_count := retry_count st in
      if unsafe_sql sql then (error_update "Unsafe SQL detected", w)
      else
        let (r, w1) := db_execute_query sql w in
        if negb (success r) && (retry_count <? 2)
        then
          let (fx, w2) := invoke (FixSqlPrompt (data r) sql (schema st)) w1 in
          match fx with
          | Ok fixed_sql =>
              match clean_sql fixed_sql with
              | Ok fixed_sql =>
                  let (r2, w3) := db_execute_query fixed_sql w2 in
                  if success r2
                  then
                    ({| u_messages := [AIMessage "Query executed after retry"];
                        u_sql_query := Some fixed_sql;
                        u_results :=
                          Some {| columns := res_columns r2;
                                  rows := data r2;
                                  row_count := len (data r2) |};
                        u_answer := None; u_error := None;
                        u_retry_count := Some (retry_count + 1);
                        u_evaluation_score := None |}, w3)
                  else (conclude retry_count r2, w3)
              | Raise _ => (conclude retry_count r, w2)
              end
          | Raise _ => (conclude retry_count r, w2)
          end
        else (conclude retry_count r, w1)
  end.

(** The lines ["Row {i+1}: {row}\n"] of the first rows. *)
Fixpoint row_lines (i : nat) (its : list string) : string :=
  match its with
  | [] => EmptyString
  | it :: its' =>
      "Row " ++ str_nat (i + 1) ++ ": " ++ it ++ nl ++ row_lines (S i) its'
  end.

Definition rows_text (results : ResultSet) : string :=
  if truthy_data (rows results)
  then
    "Columns : " ++ str_columns py (columns results) ++ nl
    ++ row_lines 0 (firstn 10 (items (rows results)))
    ++ (if 10 <? row_count results
        then "... and " ++ str_nat (row_count results - 10) ++ " more rows"
        else EmptyString)
  else "No data found".

Definition answer_update (a : string) (ms : list Message) : Update :=
  {| u_messages := ms; u_sql_query := None; u_results := None;
     u_answer := Some a; u_error := None; u_retry_count := None;
     u_evaluation_score := None |}.

Definition format_answer_node (st : AgentState) (w : World)
  : Update * World :=
  if truthy (error st)
  then
    (answer_update
       ("I encountered an error " ++ match error st with
                                     | Some e => e
                                     | None => EmptyString
                                     end)
       [AIMessage_class], w)
  else
    match results st with
    | None =>
        (answer_update "No results to display" [AIMessage "No results"], w)
    | Some results =>
        let basic :=
          answer_update
            ("Results " ++ str_nat (row_count results) ++ " rows found")
            [AIMessage "Basic answer provided"] in
        match sql_query st with
        | None => (basic, w)
        | Some sql =>
            let (r, w1) :=
              invoke (FormatAnswerPrompt (user_query st) sql
                        (rows_text results) (row_count results)) w in
            match r with
            | Ok answer =>
                (answer_update answer [AIMessage "Answer formatted"], w1)
            | Raise _ => (basic, w1)
            end
        end
    end.

Definition message_update (m : string) : Update :=
  {| u_messages := [AIMessage m]; u_sql_query := None; u_results := None;
     u_answer := None; u_error := None; u_retry_count := None;
     u_evaluation_score := None |}.

(** The sample [evaluate_node] builds; [str(state.get("results"))] is
    ["None"] when there are no results. *)
Definition make_sample (st : AgentState) (answer sql : string) : Sample :=
  let results_retrieved :=
    match results st with
    | None => "None"
    | Some r => str_results py r
    end in
  {| user_input := user_query st;
     response := answer;
     reference :=
       "SQL: " ++ sql ++ nl
       ++ "Results Retrieved after execution of Query: "
       ++ results_retrieved |}.

(** [evaluate_node]; a failure of the imports or of the scorer is the
    scorer's oracle raising. *)
Definition evaluate_node (st : AgentState) (w : World) : Update * World :=
  match answer st, sql_query st with
  | Some (String _ _ as answer), Some (String _ _ as sql) =>
      let (r, w1) := score (make_sample st answer sql) w in
      match r with
      | Ok sc =>
          ({| u_messages := [AIMessage ("Evaluation: " ++ format_2f py sc)];
              u_sql_query := None; u_results := None; u_answer := None;
              u_error := None; u_retry_count := None;
              u_evaluation_score := Some sc |}, w1)
      | Raise _ => (message_update "Evaluation skipped", w1)
      end
  | _, _ => (message_update "Skipping evaluation", w)
  end.

End Nodes.

End nodes.
Import nodes.

(** ** [agents/graph.py] *)

Module graph.

Inductive Node : Type :=
| generate_sql
| execute_sql
| format_answer
| evaluate
| END.

(** The conditional routing after [execute_sql]. *)
Definition check_execution (st : AgentState) : Node :=
  if truthy (error st) && (retry_count st <? 2)
  then generate_sql
  else format_answer.

(** A configuration of a run: the node to execute next, the state and
    the calls made so far. *)
Record Config : Type := {
  node : Node;
  cstate : AgentState;
  world : World
}.

(** A node function as Python sees it: its name, its required
    positional parameters, and its body once they are all bound. The
    collaborators [db] and [llm] of a body are the ones of the
    section. *)
Record NodeFunction : Type := {
  name : string;
  parameters : list string;
  body : AgentState -> World -> Update * World
}.

Definition missing_argument (f p : string) : string :=
  f ++ "() missing 1 required positional argument: '" ++ p ++ "'".

Fixpoint quoted_names (ps : list string) : string :=
  match ps with
  | [] => EmptyString
  | [p] => "'" ++ p ++ "'"
  | [p; q] => "'" ++ p ++ "' and '" ++ q ++ "'"
  | p :: ps' => "'" ++ p ++ "', " ++ quoted_names ps'
  end.

(** [f(a1, ..., an)]: the parameters are bound to the [n] positional
    arguments in order; one that stays unbound, or an argument too many,
    is a [TypeError] raised before the body runs. *)
Definition call_with (f : NodeFunction) (n : nat)
  (st : AgentState) (w : World) : Res (Update * World) :=
  if List.length (parameters f) <? n
  then Raise (name f ++ "() takes "
              ++ str_nat (List.length (parameters f))
              ++ " positional arguments but " ++ str_nat n
              ++ " were given")
  else
    match skipn n (parameters f) with
    | [] => Ok (body f st w)
    | [p] => Raise (missing_argument (name f) p)
    | ps => Raise (name f ++ "() missing "
                   ++ str_nat (List.length ps)
                   ++ " required positional arguments: "
                   ++ quoted_names ps)
    end.

Section Graph.

Variable py : PyRepr.
Variable ext : Backends.

(** The four [def]s of [agents/nodes.py]. *)
Definition generate_sql_node_def : NodeFunction :=
  {| name := "generate_sql_node";
     parameters := ["state"; "db"; "llm"];
     body := generate_sql_node ext |}.

Definition execute_sql_node_def : NodeFunction :=
  {| name := "execute_sql_node";
     parameters := ["state"; "db"; "llm"];
     body := execute_sql_node py ext |}.

Definition format_answer_node_def : NodeFunction :=
  {| name := "format_answer_node";
     parameters := ["state"; "llm"];
     body := format_answer_node py ext |}.

Definition evaluate_node_def : NodeFunction :=
  {| name := "evaluate_node";
     parameters := ["state"; "llm"];
     body := evaluate_node py ext |}.

(** The callables [create_graph] registers with [add_node], applied to
    the state as the graph applies them: the two lambdas call their node
    function with [state] and [db], the two functions registered bare
    are called with the state alone. *)
Definition registered (n : Node)
  : option (AgentState -> World -> Res (Update * World)) :=
  match n with
  | generate_sql => Some (call_with generate_sql_node_def 2)
  | execute_sql => Some (call_with execute_sql_node_def 2)
  | format_answer => Some (call_with format_answer_node_def 1)
  | evaluate => Some (call_with evaluate_node_def 1)
  | END => None
  end.

(** The outgoing edge of a node, taken on the merged state. *)
Definition next (n : Node) (st : AgentState) : Node :=
  match n with
  | generate_sql => execute_sql
  | execute_sql => check_execution st
  | format_answer => evaluate
  | evaluate => END
  | END => END
  end.

(** One node execution: the registered callable is applied, its update
    is merged and the outgoing edge taken. An exception of the callable
    or of the merge ends the stream. [END] is final. *)
Definition step (c : Config) : Res Config :=
  match registered (node c) with
  | None => Ok c
  | Some f =>
      match f (cstate c) (world c) with
      | Raise msg => Raise msg
      | Ok (u, w') =>
          match merge (cstate c) u with
          | Raise msg => Raise msg
          | Ok st' =>
              Ok {| node := next (node c) st'; cstate := st';
                    world := w' |}
          end
      end
  end.

Definition recursion_limit_reached (limit : nat) : string :=
  "Recursion limit of " ++ str_nat limit
  ++ " reached without hitting a stop condition.".

(** [app.stream(initial_state, config)] run to its end, with [limit]
    node executions allowed: the final configuration when [END] is
    reached, the exception otherwise, that of a node or of the merge,
    or the graph's own when the limit is exhausted first. *)
Fixpoint stream_from (limit k : nat) (c : Config) : Res Config :=
  match node c with
  | END => Ok c
  | _ =>
      match k with
      | O => Raise (recursion_limit_reached limit)
      | S k' =>
          match step c with
          | Raise msg => Raise msg
          | Ok c' => stream_from limit k' c'
          end
      end
  end.

Definition stream (limit : nat) (c : Config) : Res Config :=
  stream_from limit limit c.

End Graph.

(** The state the caller starts a run with, and the entry edge. *)
Definition initial_state (user_query schema : string) : AgentState :=
  {| messages := [HumanMessage user_query];
     user_query := user_query;
     schema := schema;
     sql_query := None; results := None; answer := None; error := None;
     retry_count := 0; evaluation_score := None |}.

Definition start (user_query schema : string) : Config :=
  {| node := generate_sql;
     cstate := initial_state user_query schema;
     world := empty_world |}.

End graph.
Import graph.

(** ** Worked runs: concrete collaborators

    The renderings below agree with Python on integers, NULLs, and on
    texts without quotes or escapes, which is all the worked runs use. *)

Module runs.

Fixpoint join (sep : string) (l : list string) : string :=
  match l with
  | [] => EmptyString
  | [x] => x
  | x :: l' => x ++ sep ++ join sep l'
  end.

Definition quote (s : string) : string := "'" ++ s ++ "'".

Definition str_value (v : Value) : string :=
  match v with
  | VInt z => NilEmpty.string_of_int (Z.to_int z)
  | VStr s => quote s
  | VNull => "None"
  end.

Definition str_tuple (r : Row) : string :=
  match r with
  | [v] => "(" ++ str_value v ++ ",)"
  | _ => "(" ++ join ", " (map str_value r) ++ ")"
  end.

Definition str_list (l : list string) : string := "[" ++ join ", " l ++ "]".

Definition str_opt_columns (c : option (list string)) : string :=
  match c with
  | None => "None"
  | Some l => str_list (map quote l)
  end.

Definition str_qdata (d : QData) : string :=
  match d with
  | Rows rs => str_list (map str_tuple rs)
  | Text s => quote s
  end.

Definition two_digits (n : nat) : string :=
  (if n <? 10 then "0" else EmptyString) ++ str_nat n.

(** [f"{score:.2f}"] for a finite score: the exact value of the float
    rounded to two decimals, a tie going to the even digit (0.125 gives
    [0.12]). A score that is not a number has no counterpart in
    [Score]. *)
Definition hundredths (q : Score) : Z :=
  let h := Qfloor (q * 100)%Q in
  match (q * 100 - inject_Z h ?= 1 # 2)%Q with
  | Gt => h + 1
  | Eq => if Z.even h then h else h + 1
  | Lt => h
  end%Z.

Definition str_2f (q : Score) : string :=
  let h := Z.to_nat (hundredths (Qabs q)) in
  (if Qlt_le_dec q 0 then "-" else EmptyString)
  ++ str_nat (h / 100) ++ "." ++ two_digits (h mod 100).

Definition py : PyRepr :=
  {| str_rows := fun rs => str_list (map str_tuple rs);
     str_row := str_tuple;
     str_columns := str_opt_columns;
     str_results := fun r =>
       "{'columns': " ++ str_opt_columns (columns r)
       ++ ", 'rows': " ++ str_qdata (rows r)
       ++ ", 'row_count': " ++ str_nat (row_count r) ++ "}";
     format_2f := str_2f |}.

Definition unknown_column : QueryResult :=
  (false, Text "1054 (42S22): Unknown column", None).

Definition one_name : QueryResult :=
  (true, Rows [[VStr "Ada"]], Some ["name"]).

Definition written : QueryResult :=
  (true, Text manager.write_message, None).

Definition half (_ : nat) (_ : Sample) : Res Score := Ok (1 # 2)%Q.

(** The database fails on every call; the backend always answers with
    the same read statement. *)
Definition always_failing : Backends :=
  {| llm := fun _ _ => Ok "SELECT nme FROM students";
     execute_query := fun _ _ => unknown_column;
     single_turn_score := half |}.

(** The backend raises on every call. *)
Definition backend_down : Backends :=
  {| llm := fun _ _ => Raise "Connection error.";
     execute_query := fun _ _ => one_name;
     single_turn_score := half |}.

(** The first execution fails and the repair answers with a write. *)
Definition repaired_by_write (fixed : string) : Backends :=
  {| llm := fun _ p =>
       match p with
       | FixSqlPrompt _ _ _ => Ok fixed
       | _ => Ok "SELECT nme FROM students"
       end;
     execute_query := fun n _ =>
       match n with
       | 0 => unknown_column
       | _ => written
       end;
     single_turn_score := half |}.

Definition question : string := "Show me all students".
Definition students : string := "TABLE: students".

(** A state entering [execute_sql] with [sql] as the candidate. *)
Definition with_sql (sql : string) : AgentState :=
  {| messages := [HumanMessage question];
     user_query := question; schema := students;
     sql_query := Some sql; results := None; answer := None;
     error := None; retry_count := 0; evaluation_score := None |}.

(** A state leaving [execute_sql] with the budget exhausted. *)
Definition exhausted : AgentState :=
  {| messages := [HumanMessage question];
     user_query := question; schema := students;
     sql_query := Some "SELECT nme FROM students"; results := None;
     answer := None;
     error := Some "Execution failed : 1054 (42S22): Unknown column";
     retry_count := 2; evaluation_score := None |}.

(** A driver whose every call succeeds: one server, one connection,
    one cursor; the server counts the statements it has executed. *)
Definition healthy : manager.Driver nat unit unit :=
  {| manager.mysql_connect := fun sv => (Ok tt, sv);
     manager.is_connected := fun _ sv => (true, sv);
     manager.cursor := fun _ sv => (Ok tt, sv);
     manager.execute := fun _ _ sv => (Ok tt, S sv);
     manager.fetchall := fun _ sv => (Ok [[VInt 1]], sv);
     manager.description := fun _ _ => Some ["1"];
     manager.close := fun _ sv => (Ok tt, sv);
     manager.commit := fun _ sv => (Ok tt, sv) |}.

Definition fresh : manager.Env nat unit :=
  {| manager.connection := None; manager.server := 0;
     manager.trace := [] |}.

End runs.

(** ** Assumptions on the collaborators *)

Module assumptions.

(** A candidate the execution node hands to the executor: not empty and
    not rejected by the injection check. *)
Definition usable (sql : string) : Prop :=
  sql <> EmptyString /\ unsafe_sql sql = false.

(** Every call of the generator chain returns a completion whose cleanup
    is usable. *)
Definition generator_usable (ext : Backends) (user_query schema : string)
  : Prop :=
  forall n, exists raw sql,
    llm ext n (GenerateSqlPrompt schema user_query) = Ok raw
    /\ clean_sql raw = Ok sql /\ usable sql.

(** Every call of the generator chain raises. *)
Definition generator_always_fails (ext : Backends)
  (user_query schema : string) : Prop :=
  forall n, exists msg,
    llm ext n (GenerateSqlPrompt schema user_query) = Raise msg.

(** The executor fails on every call, whatever the statement. *)
Definition executor_always_fails (ext : Backends) : Prop :=
  forall n q, success (execute_query ext n q) = false.

End assumptions.
Import assumptions.

(** ** [database/manager.py]: schema introspection *)

Module schema.

(** The statements among the driver calls of a trace, and the number of
    its calls of a given kind. *)
Fixpoint executed (tr : list manager.Event) : list string :=
  match tr with
  | [] => []
  | manager.EvExecute q :: tr' => q :: executed tr'
  | _ :: tr' => executed tr'
  end.

Definition is_connect (ev : manager.Event) : bool :=
  match ev with
  | manager.EvConnect => true
  | _ => false
  end.

Definition is_commit (ev : manager.Event) : bool :=
  match ev with
  | manager.EvCommit => true
  | _ => false
  end.

Definition is_fetchall (ev : manager.Event) : bool :=
  match ev with
  | manager.EvFetchall => true
  | _ => false
  end.

Definition count (f : manager.Event -> bool) (tr : list manager.Event)
  : nat :=
  List.length (filter f tr).

Definition header : string := "DATABASE SCHEMA" ++ nl ++ nl.

(** What one attempt of [execute_query] may add to the trace of driver
    calls: no connection, the statement at most once, no commit for a
    read and no fetch for a write. *)
Definition attempt_calls (query : string) (d : list manager.Event) : Prop :=
  count is_connect d = 0
  /\ (executed d = [] \/ executed d = [query])
  /\ (startswith_any (upper (strip query)) manager.read_keywords = true ->
      count is_commit d = 0)
  /\ (startswith_any (upper (strip query)) manager.read_keywords = false ->
      count is_fetchall d = 0).

Section Introspection.

Variables Server Conn Cursor : Type.
Variable drv : manager.Driver Server Conn Cursor.

(** Python's [str] of a cell and of a row, as f-strings render them. *)
Variable str_value : Value -> string.
Variable str_row : Row -> string.

(** [self], with its cached [schema_text]. *)
Record DatabaseManager : Type := {
  env : manager.Env Server Conn;
  schema_text : string
}.

(** [key == "PRI"] *)
Definition is_PRI (key : Value) : bool :=
  match key with
  | VStr s => String.eqb s "PRI"
  | _ => false
  end.

(** The loop over the rows of [DESCRIBE]: each row is unpacked into six
    names, which raises for a row of another length. *)
Fixpoint format_columns (columns : list Row) (schema_text : string)
  : Res string :=
  match columns with
  | [] => Ok schema_text
  | [col_name; col_type; nullable; key; default; extra] :: rest =>
      format_columns rest
        (schema_text ++ " - " ++ str_value col_name
         ++ " (" ++ str_value col_type ++ ")"
         ++ (if is_PRI key then " PRIMARY KEY" else EmptyString)
         ++ nl)
  | _ :: _ => Raise "not enough values to unpack (expected 6)"
  end.

Fixpoint format_samples (samples : list Row) (schema_text : string)
  : string :=
  match samples with
  | [] => schema_text
  | row :: rest =>
      format_samples rest (schema_text ++ "  " ++ str_row row ++ nl)
  end.

Definition describe_statement (t : string) : string := "DESCRIBE " ++ t.
Definition sample_statement (t : string) : string :=
  "SELECT * FROM " ++ t ++ " LIMIT 2".

(** The loop over the rows of [SHOW TABLES]. *)
Fixpoint describe_tables (cur : Cursor) (tables : list Row)
  (schema_text : string) : manager.M Server Conn string :=
  match tables with
  | [] => manager.ret schema_text
  | [table_name] :: rest =>
      let t := str_value table_name in
      manager.bind
        (manager.call (manager.EvExecute (describe_statement t))
           (manager.execute drv cur (describe_statement t)))
        (fun _ =>
      manager.bind (manager.call manager.EvFetchall (manager.fetchall drv cur))
        (fun columns =>
      match format_columns columns
              (schema_text ++ "TABLE: " ++ t ++ nl ++ "Columns:" ++ nl) with
      | Raise msg => fun e => (Raise msg, e)
      | Ok schema_text =>
          manager.bind
            (manager.call (manager.EvExecute (sample_statement t))
               (manager.execute drv cur (sample_statement t)))
            (fun _ =>
          manager.bind
            (manager.call manager.EvFetchall (manager.fetchall drv cur))
            (fun samples =>
          describe_tables cur rest
            (match samples with
             | [] => schema_text
             | _ :: _ =>
                 format_samples samples (schema_text ++ "Sample rows:" ++ nl)
             end ++ nl)))
      end))
  | _ :: _ => fun e => (Raise "too many values to unpack (expected 1)", e)
  end.

(** The body of the [try] of [get_schema]. *)
Definition schema_body : manager.M Server Conn string :=
  fun e =>
    match manager.connection e with
    | None => (Raise "'NoneType' object has no attribute 'cursor'", e)
    | Some conn =>
        manager.bind (manager.call manager.EvCursor (manager.cursor drv conn))
          (fun cur =>
        manager.bind
          (manager.call (manager.EvExecute "SHOW TABLES")
             (manager.execute drv cur "SHOW TABLES"))
          (fun _ =>
        manager.bind
          (manager.call manager.EvFetchall (manager.fetchall drv cur))
          (fun tables =>
        manager.bind (describe_tables cur tables header)
          (fun schema_text =>
        manager.bind (manager.call manager.EvClose (manager.close drv cur))
          (fun _ => manager.ret schema_text))))) e
    end.

(** [get_schema()]: any exception gives the empty text. *)
Definition get_schema (self : DatabaseManager) : string * DatabaseManager :=
  let e1 := manager.ensure_connection drv (env self) in
  match schema_body e1 with
  | (Ok text, e2) => (text, {| env := e2; schema_text := text |})
  | (Raise _, e2) =>
      (EmptyString, {| env := e2; schema_text := schema_text self |})
  end.

End Introspection.

End schema.

(** ** [ui.py]: the handling of one question *)

Module ui.

(** What the handler of the execute button does with a question: nothing,
    the validator's direct response, the display of the final state of
    the stream, or the message of its [except] branch. *)
Inductive Response : Type :=
| NoAction
| DirectResponse (response_text : option string)
| Displayed (final_state : AgentState)
| ErrorOccurred (message : string).

(** [if execute_button and user_query:] the question is validated; a
    question the validator rejects is answered directly, any other one
    is streamed through the graph [create_graph] builds, from the
    initial state. An exception of the stream is caught and shown as
    ["An error occurred: ..."]. [limit] is the recursion limit of the
    stream. *)
Definition on_execute (py : PyRepr) (ext : Backends)
  (validator_llm : Prompt -> Res string) (limit : nat)
  (user_query schema : string) : Response :=
  match user_query with
  | EmptyString => NoAction
  | _ =>
      let (is_sql_query, response_text) :=
        validator.validate_query user_query validator_llm in
      if negb is_sql_query
      then DirectResponse response_text
      else
        match stream py ext limit (start user_query schema) with
        | Ok c => Displayed (cstate c)
        | Raise msg => ErrorOccurred ("An error occurred: " ++ msg)
        end
  end.

End ui.

(** ** The updates of the execution node *)

Module invariants.

(** What an update returned by [execute_sql_node] looks like, when the
    state it was given counted [rc] rounds. *)
Definition exec_update_ok (rc : nat) (u : Update) : Prop :=
  u_answer u = None
  /\ u_evaluation_score u = None
  /\ (u_retry_count u = None \/ u_retry_count u = Some (rc + 1))
  /\ ((truthy (u_error u) = true /\ u_results u = None)
      \/ (u_error u = None /\ u_results u <> None)).

End invariants.
Import invariants.

(** ** More worked runs *)

Module cases.

(** The question is answered at the first attempt. *)
Definition happy : Backends :=
  {| llm := fun _ p =>
       match p with
       | GenerateSqlPrompt _ _ => Ok "SELECT COUNT(*) FROM students"
       | FormatAnswerPrompt _ _ _ _ => Ok "There are 42 students."
       | _ => Raise "unexpected prompt"
       end;
     execute_query := fun _ _ => (true, Rows [[VInt 42]], Some ["COUNT(*)"]);
     single_turn_score := runs.half |}.

(** The generator always answers with a statement the injection check
    rejects. *)
Definition deleting : Backends :=
  {| llm := fun _ _ => Ok "DELETE FROM students";
     execute_query := fun _ _ => runs.written;
     single_turn_score := runs.half |}.

(** The generator answers, the repair chain raises and the executor
    fails. *)
Definition repair_down : Backends :=
  {| llm := fun _ p =>
       match p with
       | GenerateSqlPrompt _ _ => Ok "SELECT nme FROM students"
       | _ => Raise "Connection error."
       end;
     execute_query := fun _ _ => runs.unknown_column;
     single_turn_score := runs.half |}.

(** A state in which an error was recorded and one round counted, about
    to regenerate. *)
Definition after_one_failure : AgentState :=
  {| messages := [HumanMessage runs.question];
     user_query := runs.question; schema := runs.students;
     sql_query := Some "SELECT nme FROM students"; results := None;
     answer := None;
     error := Some "Execution failed : 1054 (42S22): Unknown column";
     retry_count := 1; evaluation_score := None |}.

(** A driver that cannot connect. *)
Definition unreachable : manager.Driver nat unit unit :=
  {| manager.mysql_connect := fun sv => (Raise "2003: Can't connect", sv);
     manager.is_connected := fun _ sv => (false, sv);
     manager.cursor := fun _ sv => (Ok tt, sv);
     manager.execute := fun _ _ sv => (Ok tt, S sv);
     manager.fetchall := fun _ sv => (Ok [], sv);
     manager.description := fun _ _ => None;
     manager.close := fun _ sv => (Ok tt, sv);
     manager.commit := fun _ sv => (Ok tt, sv) |}.

(** A database with the one table [students]: the server counts the
    statements, and what is fetched depends on the last one. *)
Definition catalogue : manager.Driver nat unit unit :=
  {| manager.mysql_connect := fun sv => (Ok tt, sv);
     manager.is_connected := fun _ sv => (true, sv);
     manager.cursor := fun _ sv => (Ok tt, sv);
     manager.execute := fun _ _ sv => (Ok tt, S sv);
     manager.fetchall := fun _ sv =>
       (Ok match sv with
           | 1 => [[VStr "students"]]
           | 2 => [[VStr "id"; VStr "int"; VStr "NO"; VStr "PRI"; VNull;
                    VStr "auto_increment"];
                   [VStr "name"; VStr "varchar(50)"; VStr "YES"; VStr "";
                    VNull; VStr ""]]
           | _ => [[VInt 1; VStr "Ada"]]
           end, sv);
     manager.description := fun _ _ => Some ["1"];
     manager.close := fun _ sv => (Ok tt, sv);
     manager.commit := fun _ sv => (Ok tt, sv) |}.

(** [str] of a cell in an f-string: a text is rendered without quotes. *)
Definition str_cell (v : Value) : string :=
  match v with
  | VStr s => s
  | _ => runs.str_value v
  end.

Definition new_manager : schema.DatabaseManager nat unit :=
  {| schema.env := runs.fresh; schema.schema_text := EmptyString |}.

End cases.

(** * Properties *)

(** ** String lemmas *)

Lemma rstrip_idem (s : string) : rstrip (rstrip s) = rstrip s.
Proof.
  induction s as [|c s IH]; simpl; [reflexivity|].
  destruct (rstrip s) as [|a r] eqn:E.
  - destruct (is_space c) eqn:Hc; simpl; [reflexivity|].
    now rewrite Hc.
  - simpl in IH. simpl. now rewrite IH.
Qed.

Lemma lstrip_head (s : string) :
  match lstrip s with
  | EmptyString => True
  | String c _ => is_space c = false
  end.
Proof.
  induction s as [|c s IH]; simpl; [exact I|].
  destruct (is_space c) eqn:Hc; [exact IH | exact Hc].
Qed.

Lemma lstrip_rstrip_head (t : string) :
  match t with
  | EmptyString => True
  | String c _ => is_space c = false
  end ->
  lstrip (rstrip t) = rstrip t.
Proof.
  destruct t as [|c t]; simpl; [reflexivity|].
  intros Hc. destruct (rstrip t); rewrite ?Hc; simpl; now rewrite Hc.
Qed.

Lemma strip_idem (s : string) : strip (strip s) = strip s.
Proof.
  unfold strip.
  rewrite (lstrip_rstrip_head (lstrip s) (lstrip_head s)).
  apply rstrip_idem.
Qed.

(** The last character of a right-stripped text is not a whitespace. *)
Lemma rstrip_last (s p : string) (c : ascii) :
  rstrip s = p ++ String c EmptyString -> is_space c = false.
Proof.
  revert p. induction s as [|a s IH]; intros p; simpl.
  - destruct p; discriminate.
  - destruct (rstrip s) as [|b r] eqn:E.
    + destruct (is_space a) eqn:Ha.
      * destruct p; discriminate.
      * destruct p as [|x p]; simpl; intros H.
        -- now inversion H; subst.
        -- inversion H. destruct p; discriminate.
    + destruct p as [|x p]; simpl; intros H.
      * discriminate.
      * inversion H. eapply IH. eassumption.
Qed.

Lemma split_go_nonempty (sep s : string) (k : nat) (cur : list ascii) :
  split_go sep s k cur <> [].
Proof.
  revert k cur. induction s as [|c s IH]; intros k cur; cbn [split_go].
  - intros H; discriminate H.
  - destruct k; [|apply IH].
    destruct (startswith (String c s) sep);
      [intros H; discriminate H | apply IH].
Qed.

Lemma startswith_cons (a b : ascii) (p s : string) :
  startswith (String b s) (String a p) = true ->
  a = b /\ startswith s p = true.
Proof.
  simpl. intros H. apply andb_prop in H as [H1 H2].
  now apply Ascii.eqb_eq in H1.
Qed.

Lemma startswith_fence (s : string) :
  startswith s fence = true ->
  exists rest, s = String "`" (String "`" (String "`" rest)).
Proof.
  unfold fence. intros H.
  destruct s as [|a s]; [discriminate H|].
  apply startswith_cons in H as [<- H].
  destruct s as [|b s]; [discriminate H|].
  apply startswith_cons in H as [<- H].
  destruct s as [|c s]; [discriminate H|].
  apply startswith_cons in H as [<- H].
  now exists s.
Qed.

(** ** The cleanup of a completion *)

(** [split(fence)[1]] is always there when the text starts with a fence:
    the cleanup never raises. *)

Lemma split_fenced (rest : string) :
  split (String "`" (String "`" (String "`" rest))) fence
  = EmptyString :: split_go fence rest 0 [].
Proof. reflexivity. Qed.

Lemma clean_sql_total (raw : string) : exists sql, clean_sql raw = Ok sql.
Proof.
  unfold clean_sql.
  destruct (startswith (strip raw) fence) eqn:H; [|eauto].
  destruct (startswith_fence _ H) as [rest ->].
  rewrite split_fenced.
  destruct (split_go fence rest 0 []) as [|seg l] eqn:E.
  - now apply split_go_nonempty in E.
  - simpl. eauto.
Qed.

(** What the cleanup returns is trimmed. *)
Lemma clean_sql_trimmed (raw sql : string) :
  clean_sql raw = Ok sql -> strip sql = sql.
Proof.
  unfold clean_sql.
  destruct (startswith (strip raw) fence).
  - destruct (nth_error _ 1); [|discriminate].
    intros H. inversion H. apply strip_idem.
  - intros H. inversion H. apply strip_idem.
Qed.

(** The example of the specification: a fenced block tagged [sql]. *)
Example clean_sql_fenced_select :
  clean_sql ("```sql" ++ nl ++ "SELECT * FROM t" ++ nl ++ "```")
  = Ok "SELECT * FROM t".
Proof. reflexivity. Qed.

(** A language tag other than [sql] stays in the text. *)
Example clean_sql_other_tag :
  clean_sql ("```mysql" ++ nl ++ "SELECT 1" ++ nl ++ "```")
  = Ok ("my" ++ nl ++ "SELECT 1").
Proof. reflexivity. Qed.

(** C7. Fenced-code cleanup. The cleanup removes every occurrence of
    [sql] in the fenced segment, not only a leading language tag: for the
    completion that fences [SELECT * FROM mysql_users] under the tag
    [sql], the stored statement reads from [my_users]; the SQL text is
    not left unchanged. *)
Theorem clean_sql_rewrites_statement :
  clean_sql ("```sql" ++ nl ++ "SELECT * FROM mysql_users" ++ nl ++ "```")
  = Ok "SELECT * FROM my_users".
Proof. reflexivity. Qed.

(** ** The pre-pipeline gate *)

Lemma upper_char_line_feed (c : ascii) :
  upper_char c = "010"%char -> c = "010"%char.
Proof.
  destruct c as [[] [] [] [] [] [] [] []]; vm_compute; intros H;
    first [reflexivity | discriminate H].
Qed.

(** A trimmed text is never the token followed by a line feed, so on the
    trimmed completion the pattern matches exactly the token. *)
Lemma true_pattern_match_strip (s : string) :
  validator.true_pattern_match (strip s) = String.eqb (upper (strip s)) "TRUE".
Proof.
  unfold validator.true_pattern_match.
  destruct (String.eqb (upper (strip s)) ("TRUE" ++ nl)) eqn:E;
    [|now rewrite orb_false_r].
  exfalso. apply String.eqb_eq in E.
  unfold strip in *.
  destruct (rstrip (lstrip s)) as [|a [|b [|c [|d [|e [|f t]]]]]] eqn:R;
    try discriminate E.
  simpl in E. inversion E as [[Ha Hb Hc Hd He]].
  apply upper_char_line_feed in He. subst e.
  pose proof (rstrip_last (lstrip s)
                (String a (String b (String c (String d EmptyString))))
                "010"%char R) as H.
  discriminate H.
Qed.

Lemma validate_query_cases (query : string) (llm : Prompt -> Res string) :
  match llm (ValidationPrompt query) with
  | Raise _ => validator.validate_query query llm = (true, None)
  | Ok output =>
      let t := strip output in
      if String.eqb (upper t) "TRUE"
         || (contains "TRUE" (upper t) && (String.length t <? 10)
             && String.eqb (keep_AZ (upper t)) "TRUE")
      then validator.validate_query query llm = (true, None)
      else validator.validate_query query llm = (false, Some t)
  end.
Proof.
  unfold validator.validate_query.
  destruct (llm (ValidationPrompt query)) as [output|msg]; [|reflexivity].
  cbv zeta. rewrite true_pattern_match_strip.
  destruct (String.eqb (upper (strip output)) "TRUE"); [reflexivity|].
  rewrite orb_false_l.
  destruct (contains "TRUE" (upper (strip output))
            && (String.length (strip output) <? 10)); [|reflexivity].
  rewrite andb_true_l.
  destruct (String.eqb (keep_AZ (upper (strip output))) "TRUE"); reflexivity.
Qed.

(** C8. Pre-pipeline gate matching rule, as the code has it.
    [validate_query] returns [(true, None)] exactly when the backend
    raises, or the trimmed output is the token TRUE whatever the case, or
    the trimmed output contains TRUE whatever the case, is itself under 10
    characters long, and is exactly TRUE once uppercased and stripped of
    every character outside A-Z; for any other output it returns [false]
    with the trimmed output. *)
Theorem validate_query_rule (query : string) (llm : Prompt -> Res string) :
  (validator.validate_query query llm = (true, None) <->
   (exists msg, llm (ValidationPrompt query) = Raise msg)
   \/ (exists output,
         llm (ValidationPrompt query) = Ok output
         /\ (upper (strip output) = "TRUE"
             \/ (contains "TRUE" (upper (strip output)) = true
                 /\ String.length (strip output) < 10
                 /\ keep_AZ (upper (strip output)) = "TRUE"))))
  /\ (forall output,
        llm (ValidationPrompt query) = Ok output ->
        ~ (upper (strip output) = "TRUE"
           \/ (contains "TRUE" (upper (strip output)) = true
               /\ String.length (strip output) < 10
               /\ keep_AZ (upper (strip output)) = "TRUE")) ->
        validator.validate_query query llm = (false, Some (strip output))).
Proof.
  pose proof (validate_query_cases query llm) as C.
  destruct (llm (ValidationPrompt query)) as [output|msg].
  - cbv zeta in C.
    destruct (String.eqb_spec (upper (strip output)) "TRUE") as [E|E].
    + simpl in C. split.
      * split; [intros _; right; exists output; auto | intros _; exact C].
      * intros o Ho N. exfalso. inversion Ho; subst o. apply N. now left.
    + rewrite orb_false_l in C.
      destruct (contains "TRUE" (upper (strip output))) eqn:Ec.
      * destruct (Nat.ltb_spec (String.length (strip output)) 10) as [L|L].
        -- destruct (String.eqb_spec (keep_AZ (upper (strip output))) "TRUE")
             as [K|K]; simpl in C.
           ++ split.
              ** split; [intros _; right; exists output; auto
                        | intros _; exact C].
              ** intros o Ho N. exfalso. inversion Ho; subst o.
                 apply N. right. auto.
           ++ split.
              ** split; [rewrite C; intros H; discriminate H|].
                 intros [[m Hm]|[o [Ho [H|[_ [_ H]]]]]];
                   [discriminate Hm | | ]; inversion Ho; subst o; contradiction.
              ** intros o Ho _. inversion Ho; subst o. exact C.
        -- simpl in C. split.
           ++ split; [rewrite C; intros H; discriminate H|].
              intros [[m Hm]|[o [Ho [H|[_ [H _]]]]]];
                [discriminate Hm | | ]; inversion Ho; subst o;
                [contradiction | lia].
           ++ intros o Ho _. inversion Ho; subst o. exact C.
      * simpl in C. split.
        -- split; [rewrite C; intros H; discriminate H|].
           intros [[m Hm]|[o [Ho [H|[H _]]]]];
             [discriminate Hm | | ]; inversion Ho; subst o;
             [contradiction | congruence].
        -- intros o Ho _. inversion Ho; subst o. exact C.
  - split.
    + split; [intros _; left; now exists msg | intros _; exact C].
    + intros o Ho. discriminate Ho.
Qed.

(** The rule as the specification words it accepts the output
    [NOT TRUE] (it contains TRUE and has 7 letters), and [validate_query]
    answers [false] with that output. *)
Lemma validate_query_stricter_than_worded :
  validator.spec_accepts "NOT TRUE" = true
  /\ validator.validate_query "Is this true?" (fun _ => Ok "NOT TRUE")
     = (false, Some "NOT TRUE").
Proof. split; reflexivity. Qed.

(** ** The safety gate of [execute_sql_node] *)

Lemma conclude_not_unsafe (py : PyRepr) (rc : nat) (r : QueryResult) :
  u_error (conclude py rc r) <> Some "Unsafe SQL detected".
Proof.
  destruct r as [[[] d] cols]; unfold conclude; simpl; intros H;
    discriminate H.
Qed.

(** A candidate that passes the gate is handed to the executor, and the
    node does not answer with the gate's error. *)
Lemma execute_sql_node_passes (py : PyRepr) (ext : Backends)
  (st : AgentState) (w : World) (c : ascii) (s : string) :
  sql_query st = Some (String c s) ->
  unsafe_sql (String c s) = false ->
  u_error (fst (execute_sql_node py ext st w)) <> Some "Unsafe SQL detected"
  /\ exists rest,
      db_log (snd (execute_sql_node py ext st w))
      = (db_log w ++ String c s :: rest)%list.
Proof.
  intros Hs Hu. unfold execute_sql_node. rewrite Hs, Hu.
  unfold db_execute_query, invoke.
  destruct (negb (success _) && (retry_count st <? 2)).
  - destruct (llm ext _ _) as [raw|e].
    + destruct (clean_sql raw) as [fixed|e].
      * destruct (success (execute_query ext _ fixed)); simpl;
          (split; [try apply conclude_not_unsafe; intros H; discriminate H|]);
          exists [fixed]; now rewrite <- app_assoc.
      * simpl. split; [apply conclude_not_unsafe | now exists []].
    + simpl. split; [apply conclude_not_unsafe | now exists []].
  - simpl. split; [apply conclude_not_unsafe | now exists []].
Qed.

(** C1. Safety gate, as the code has it: the gate looks at the
    uppercased candidate as it is stored, without trimming it. For every
    SQL string whose uppercased text begins with SELECT the gate does not
    reject it and the statement is handed to the executor; for every SQL
    string whose uppercased text does not begin with SELECT and contains
    DROP, DELETE, UPDATE or INSERT, the node returns only the error
    [Unsafe SQL detected], and no call is made: the statement is not
    executed. *)
Theorem safety_gate (py : PyRepr) (ext : Backends)
  (st : AgentState) (w : World) (sql : string)
  (Hsql : sql_query st = Some sql) :
  (startswith (upper sql) "SELECT" = true ->
   unsafe_sql sql = false
   /\ u_error (fst (execute_sql_node py ext st w))
      <> Some "Unsafe SQL detected"
   /\ exists rest,
       db_log (snd (execute_sql_node py ext st w))
       = (db_log w ++ sql :: rest)%list)
  /\ (startswith (upper sql) "SELECT" = false ->
      existsb (fun d => contains d (upper sql)) dangerous = true ->
      execute_sql_node py ext st w = (error_update "Unsafe SQL detected", w)).
Proof.
  split.
  - intros Hsel.
    assert (Hu : unsafe_sql sql = false)
      by (unfold unsafe_sql; now rewrite Hsel).
    split; [exact Hu|].
    destruct sql as [|c s]; [discriminate Hsel|].
    now apply execute_sql_node_passes.
  - intros Hsel Hd.
    destruct sql as [|c s]; [discriminate Hd|].
    unfold execute_sql_node. rewrite Hsql.
    unfold unsafe_sql. now rewrite Hsel, Hd.
Qed.

(** Both cases of the gate at concrete candidates. *)
Lemma safety_gate_witness :
  (exists rest,
      db_log (snd (execute_sql_node runs.py runs.always_failing
                     (runs.with_sql "select * from drop_log") empty_world))
      = ([] ++ "select * from drop_log" :: rest)%list)
  /\ execute_sql_node runs.py runs.always_failing
       (runs.with_sql "Drop table students") empty_world
     = (error_update "Unsafe SQL detected", empty_world).
Proof.
  split.
  - apply (safety_gate runs.py runs.always_failing
             (runs.with_sql "select * from drop_log") empty_world
             eq_refl); reflexivity.
  - apply (safety_gate runs.py runs.always_failing
             (runs.with_sql "Drop table students") empty_world
             eq_refl); reflexivity.
Defined.

(** A candidate with a leading space: trimmed and uppercased it begins
    with SELECT, and the gate rejects it. *)
Lemma safety_gate_rejects_untrimmed_select :
  startswith (upper (strip " SELECT * FROM drop_log")) "SELECT" = true
  /\ execute_sql_node runs.py runs.always_failing
       (runs.with_sql " SELECT * FROM drop_log") empty_world
     = (error_update "Unsafe SQL detected", empty_world).
Proof. split; reflexivity. Qed.

(** The candidates the generator and the repair store are trimmed, and
    on a trimmed candidate the gate reads the trimmed, uppercased text. *)
Lemma safety_gate_on_cleaned (raw sql : string) :
  clean_sql raw = Ok sql ->
  unsafe_sql sql
  = negb (startswith (upper (strip sql)) "SELECT")
    && existsb (fun d => contains d (upper (strip sql))) dangerous.
Proof.
  intros H. now rewrite (clean_sql_trimmed raw H).
Qed.

(** ** The executor *)

Section Executor.

Variables Server Conn Cursor : Type.
Variable drv : manager.Driver Server Conn Cursor.

(** Case analysis on the outcome of the next driver call of an attempt
    known not to raise. *)
Ltac driver_call op H :=
  match type of H with
  | context [op ?x ?s0] =>
      let E := fresh "E" in
      destruct (op x s0) as [[?v|?m] ?sv] eqn:E; cbn in H;
      [|discriminate H]
  end.

(** An attempt that does not raise: what it returns and the driver
    calls it makes. *)
Lemma try_body_ok (query : string) (e e' : manager.Env Server Conn)
  (r : QueryResult) :
  manager.try_body drv query (upper (strip query)) e = (Ok r, e') ->
  if startswith_any (upper (strip query)) manager.read_keywords
  then
    exists rws cols,
      r = (true, Rows rws, Some cols)
      /\ manager.trace e'
         = (manager.trace e
            ++ [manager.EvCursor; manager.EvExecute query;
                manager.EvFetchall; manager.EvClose])%list
      /\ exists cur sv sv',
          manager.fetchall drv cur sv = (Ok rws, sv')
          /\ manager.description drv cur sv' = Some cols
  else
    r = (true, Text "Query executed successfully", None)
    /\ manager.trace e'
       = (manager.trace e
          ++ [manager.EvCursor; manager.EvExecute query;
              manager.EvCommit; manager.EvClose])%list.
Proof.
  unfold manager.try_body.
  destruct (manager.connection e) as [conn|]; [|intros H; discriminate H].
  destruct (startswith_any (upper (strip query)) manager.read_keywords);
    unfold manager.bind, manager.call, manager.ret; intros H.
  - driver_call (manager.cursor drv) H.
    match type of H with
    | context [manager.execute drv ?c query ?s0] =>
        destruct (manager.execute drv c query s0) as [[?v|?m] ?sv] eqn:E2;
        cbn in H; [|discriminate H]
    end.
    driver_call (manager.fetchall drv) H.
    match type of H with
    | context [manager.description drv ?c ?s0] =>
        destruct (manager.description drv c s0) as [cols|] eqn:D;
        cbn in H; [|discriminate H]
    end.
    driver_call (manager.close drv) H.
    inversion H; subst; clear H. cbn.
    eexists _, cols. repeat split.
    + now rewrite <- !app_assoc.
    + eauto.
  - driver_call (manager.cursor drv) H.
    match type of H with
    | context [manager.execute drv ?c query ?s0] =>
        destruct (manager.execute drv c query s0) as [[?v|?m] ?sv] eqn:E2;
        cbn in H; [|discriminate H]
    end.
    driver_call (manager.commit drv) H.
    driver_call (manager.close drv) H.
    inversion H; subst; clear H. cbn.
    split; [reflexivity | now rewrite <- !app_assoc].
Qed.

(** C5. Executor read/write classification. When the attempt made by
    [execute_query] does not raise, that attempt's result is returned;
    if the trimmed, uppercased statement starts with SELECT, SHOW,
    DESCRIBE, DESC or EXPLAIN the result is [(true, rows, columns)] with
    the fetched rows and the column names of the cursor (not null), and
    nothing is committed; for every other statement the executor commits
    and the result is [(true, "Query executed successfully", None)]. *)
Theorem execute_query_classification (query : string)
  (e0 e' : manager.Env Server Conn) (r : QueryResult)
  (Hok : manager.try_body drv query (upper (strip query))
           (manager.ensure_connection drv e0) = (Ok r, e')) :
  manager.execute_query drv query e0 = (r, e')
  /\ if startswith_any (upper (strip query))
          ["SELECT"; "SHOW"; "DESCRIBE"; "DESC"; "EXPLAIN"]
     then
       exists rws cols,
         r = (true, Rows rws, Some cols)
         /\ (exists cur sv sv',
                manager.fetchall drv cur sv = (Ok rws, sv')
                /\ manager.description drv cur sv' = Some cols)
         /\ manager.trace e'
            = (manager.trace (manager.ensure_connection drv e0)
               ++ [manager.EvCursor; manager.EvExecute query;
                   manager.EvFetchall; manager.EvClose])%list
     else
       r = (true, Text "Query executed successfully", None)
       /\ manager.trace e'
          = (manager.trace (manager.ensure_connection drv e0)
             ++ [manager.EvCursor; manager.EvExecute query;
                 manager.EvCommit; manager.EvClose])%list.
Proof.
  split.
  - unfold manager.execute_query. cbv zeta. now rewrite Hok.
  - pose proof (try_body_ok _ _ Hok) as H.
    change manager.read_keywords
      with ["SELECT"; "SHOW"; "DESCRIBE"; "DESC"; "EXPLAIN"] in H.
    destruct (startswith_any (upper (strip query)) _).
    + destruct H as (rws & cols & -> & Ht & Hf). exists rws, cols. auto.
    + exact H.
Qed.

(** Every successful result of [execute_query], also the one of the
    attempt made after a reconnection, has the shape of its class. *)
Lemma execute_query_success_shape (query : string)
  (e0 : manager.Env Server Conn) :
  let r := fst (manager.execute_query drv query e0) in
  success r = true ->
  if startswith_any (upper (strip query)) manager.read_keywords
  then exists rws cols, r = (true, Rows rws, Some cols)
  else r = (true, Text "Query executed successfully", None).
Proof.
  unfold manager.execute_query. cbv zeta.
  destruct (manager.try_body drv query _ (manager.ensure_connection drv e0))
    as [[r|msg] e2] eqn:E1.
  - intros _. apply try_body_ok in E1. change (fst (r, e2)) with r.
    destruct (startswith_any _ _).
    + destruct E1 as (rws & cols & -> & _). now exists rws, cols.
    + apply E1.
  - destruct (manager.connection_dropped msg);
      [|intros H; discriminate H].
    destruct (manager.try_body drv query _ (snd (manager.connect drv e2)))
      as [[r|msg'] e4] eqn:E2; [|intros H; discriminate H].
    intros _. apply try_body_ok in E2. change (fst (r, e4)) with r.
    destruct (startswith_any _ _).
    + destruct E2 as (rws & cols & -> & _). now exists rws, cols.
    + apply E2.
Qed.

End Executor.

(** The two statements of the specification, on a driver whose calls all
    succeed. *)
Lemma execute_query_classification_witness :
  (manager.execute_query runs.healthy "SELECT 1" runs.fresh
   = ((true, Rows [[VInt 1]], Some ["1"]),
      {| manager.connection := Some tt; manager.server := 1;
         manager.trace :=
           [manager.EvConnect; manager.EvCursor;
            manager.EvExecute "SELECT 1"; manager.EvFetchall;
            manager.EvClose] |}))
  /\ (manager.execute_query runs.healthy "UPDATE t SET x=1" runs.fresh
      = ((true, Text "Query executed successfully", None),
         {| manager.connection := Some tt; manager.server := 1;
            manager.trace :=
              [manager.EvConnect; manager.EvCursor;
               manager.EvExecute "UPDATE t SET x=1"; manager.EvCommit;
               manager.EvClose] |})).
Proof.
  split.
  - apply (execute_query_classification runs.healthy "SELECT 1" runs.fresh).
    reflexivity.
  - apply (execute_query_classification runs.healthy "UPDATE t SET x=1"
             runs.fresh).
    reflexivity.
Defined.

(** ** The nodes, one by one *)

Section NodeLemmas.

Variable py : PyRepr.
Variable ext : Backends.

Lemma generate_sql_node_usable (st : AgentState) (w : World) :
  generator_usable ext (user_query st) (schema st) ->
  exists sql,
    usable sql
    /\ generate_sql_node ext st w
       = ({| u_messages := [AIMessage "SQL generated"];
             u_sql_query := Some sql; u_results := None;
             u_answer := None; u_error := None; u_retry_count := None;
             u_evaluation_score := None |},
          {| llm_log :=
               llm_log w
               ++ [GenerateSqlPrompt (schema st) (user_query st)];
             db_log := db_log w; scorer_log := scorer_log w |}).
Proof.
  intros H.
  destruct (H (List.length (llm_log w))) as (raw & sql & Hl & Hc & Hu).
  exists sql. split; [exact Hu|].
  unfold generate_sql_node, invoke. now rewrite Hl, Hc.
Qed.

Lemma generate_sql_node_raises (st : AgentState) (w : World) :
  generator_always_fails ext (user_query st) (schema st) ->
  exists msg,
    generate_sql_node ext st w
    = ({| u_messages := [AIMessage ("Error : " ++ msg)];
          u_sql_query := None; u_results := None; u_answer := None;
          u_error := Some ("SQL generation failed : " ++ msg);
          u_retry_count := None; u_evaluation_score := None |},
       {| llm_log :=
            llm_log w ++ [GenerateSqlPrompt (schema st) (user_query st)];
          db_log := db_log w; scorer_log := scorer_log w |}).
Proof.
  intros H. destruct (H (List.length (llm_log w))) as (msg & Hl).
  exists msg. unfold generate_sql_node, invoke. now rewrite Hl.
Qed.

Lemma conclude_failure (rc : nat) (r : QueryResult) :
  success r = false ->
  conclude py rc r
  = {| u_messages := [AIMessage ("Error: " ++ str_data py (data r))];
       u_sql_query := None; u_results := None; u_answer := None;
       u_error := Some ("Execution failed : " ++ str_data py (data r));
       u_retry_count := Some (rc + 1);
       u_evaluation_score := None |}.
Proof.
  destruct r as [[sc d] cols]. unfold success, data, conclude. cbn.
  now intros ->.
Qed.

Lemma conclude_success (rc : nat) (r : QueryResult) :
  success r = true ->
  u_error (conclude py rc r) = None
  /\ u_retry_count (conclude py rc r) = None
  /\ u_sql_query (conclude py rc r) = None
  /\ u_answer (conclude py rc r) = None.
Proof.
  destruct r as [[sc d] cols]. unfold success, data, conclude. cbn.
  now intros ->.
Qed.

(** With an executor that always fails, the node reports the failure of
    the last execution it made and counts one more round; it calls the
    backend once when the budget allowed a repair. *)
Lemma execute_sql_node_all_fail (st : AgentState) (w : World)
  (sql : string) :
  executor_always_fails ext ->
  sql_query st = Some sql -> usable sql ->
  exists r,
    success r = false
    /\ fst (execute_sql_node py ext st w) = conclude py (retry_count st) r
    /\ List.length (llm_log (snd (execute_sql_node py ext st w)))
       = List.length (llm_log w)
         + (if retry_count st <? 2 then 1 else 0).
Proof.
  intros Hdb Hs [Hne Hu]. unfold executor_always_fails in Hdb.
  destruct sql as [|c s]; [contradiction|].
  unfold execute_sql_node. rewrite Hs, Hu.
  unfold db_execute_query, invoke.
  rewrite Hdb. cbn [negb andb].
  destruct (retry_count st <? 2).
  - destruct (llm ext _ _) as [raw|e].
    + destruct (clean_sql raw) as [fixed|e].
      * rewrite Hdb. eexists. split; [apply Hdb|].
        cbn [fst snd llm_log]. rewrite length_app.
        split; [reflexivity | simpl; lia].
      * eexists. split; [apply Hdb|].
        cbn [fst snd llm_log]. rewrite length_app.
        split; [reflexivity | simpl; lia].
    + eexists. split; [apply Hdb|].
      cbn [fst snd llm_log]. rewrite length_app.
      split; [reflexivity | simpl; lia].
  - eexists. split; [apply Hdb|].
    cbn [fst snd llm_log]. split; [reflexivity | lia].
Qed.

End NodeLemmas.

Section ReportingNodes.

Variable py : PyRepr.
Variable ext : Backends.

(** The formatter's short-circuit: no call is made. *)
Lemma format_answer_node_error (st : AgentState) (w : World) (e : string) :
  error st = Some e -> e <> EmptyString ->
  format_answer_node py ext st w
  = (answer_update ("I encountered an error " ++ e) [AIMessage_class], w).
Proof.
  intros He Hne. unfold format_answer_node. rewrite He.
  destruct e; [contradiction | reflexivity].
Qed.

(** The evaluator writes nothing but the score and a message, and calls
    neither the backend nor the database. *)
Lemma evaluate_node_frame (st : AgentState) (w : World) :
  let r := evaluate_node py ext st w in
  u_error (fst r) = None /\ u_retry_count (fst r) = None
  /\ u_sql_query (fst r) = None /\ u_results (fst r) = None
  /\ u_answer (fst r) = None
  /\ llm_log (snd r) = llm_log w /\ db_log (snd r) = db_log w.
Proof.
  unfold evaluate_node, score.
  destruct (answer st) as [[|a s]|]; cbn; auto 10.
  destruct (sql_query st) as [[|b t]|]; cbn; auto 10.
  destruct (single_turn_score ext _ _); cbn; auto 10.
Qed.

Lemma truthy_inv (o : option string) :
  truthy o = true -> exists e, o = Some e /\ e <> EmptyString.
Proof.
  destruct o as [[|c s]|]; intros H; try discriminate H.
  exists (String c s). split; [reflexivity | intros E; discriminate E].
Qed.

End ReportingNodes.

(** ** The graph [create_graph] builds *)

(** What a merge that goes through leaves in the state. *)
Lemma merge_Ok (st st' : AgentState) (u : Update) :
  merge st u = Ok st' ->
  messages st' = (messages st ++ u_messages u)%list
  /\ user_query st' = user_query st
  /\ schema st' = schema st
  /\ sql_query st' = override_opt (sql_query st) (u_sql_query u)
  /\ results st' = override_opt (results st) (u_results u)
  /\ answer st' = override_opt (answer st) (u_answer u)
  /\ error st' = override_opt (error st) (u_error u)
  /\ retry_count st' = override (retry_count st) (u_retry_count u)
  /\ evaluation_score st'
     = override_opt (evaluation_score st) (u_evaluation_score u).
Proof.
  unfold merge, add_messages.
  destruct (forallb is_message (messages st)
            && forallb is_message (u_messages u));
    intros H; [|discriminate H].
  inversion H. cbn. repeat split.
Qed.

(** An update whose messages are instances merges into a state whose
    messages are. *)
Lemma merge_instances (st : AgentState) (u : Update) :
  forallb is_message (messages st) = true ->
  forallb is_message (u_messages u) = true ->
  exists st', merge st u = Ok st'.
Proof.
  intros H1 H2. unfold merge, add_messages. rewrite H1, H2.
  eexists. reflexivity.
Qed.

Section CreateGraph.

Variable py : PyRepr.
Variable ext : Backends.



(** The stream of a question stops at the entry node. *)
Lemma stream_start (limit : nat) (uq sch : string) :
  stream py ext (S limit) (start uq sch)
  = Raise "generate_sql_node() missing 1 required positional argument: 'llm'".
Proof. reflexivity. Qed.


End CreateGraph.

(** ** Runs whose executions all fail *)

Lemma always_failing_usable :
  generator_usable runs.always_failing runs.question runs.students.
Proof.
  intros n. exists "SELECT nme FROM students", "SELECT nme FROM students".
  repeat split. intros H; discriminate H.
Qed.

Lemma always_failing_fails : executor_always_fails runs.always_failing.
Proof. intros n q. reflexivity. Qed.

(** C3. Retry-bound termination, on the graph as it is built. With a
    generator whose completions are always usable and an executor that
    fails on every call, the stream of a question does end, but not at
    [END] with the error set: the lambda registered for [generate_sql]
    calls [generate_sql_node(state, db)] without the [llm] the function
    requires, so the first node execution raises [TypeError] and the
    stream raises it, whatever the recursion limit. No generation call
    is made and no round is counted. *)
Theorem retry_bound_run_raises (py : PyRepr) (ext : Backends)
  (uq sch : string) (limit : nat)
  (Hgen : generator_usable ext uq sch)
  (Hdb : executor_always_fails ext) :
  stream py ext (S limit) (start uq sch)
  = Raise "generate_sql_node() missing 1 required positional argument: 'llm'"
  /\ (forall c, stream py ext (S limit) (start uq sch) <> Ok c)
  /\ step py ext (start uq sch)
     = Raise "generate_sql_node() missing 1 required positional argument: 'llm'".
Proof.
  split; [apply stream_start|].
  split; [|reflexivity].
  intros c H. rewrite stream_start in H. discriminate H.
Qed.

Lemma retry_bound_run_raises_witness :
  stream runs.py runs.always_failing 25
    (start runs.question runs.students)
  = Raise "generate_sql_node() missing 1 required positional argument: 'llm'".
Proof.
  apply (@retry_bound_run_raises runs.py runs.always_failing
           runs.question runs.students 24
           always_failing_usable always_failing_fails).
Defined.

(** ** The terminal state of a failed run *)

(** C4. The report of an exhausted budget. For every state that has
    exhausted the retry budget with execution still failing ([error]
    set, [retry_count] at 2 or more), the router selects the formatter,
    and the formatter's update sets [answer] to the error report, leaves
    [error] as it is and calls no collaborator: what follows the
    exhausted budget is an error with an answer, not an error without
    one. *)
Theorem exhausted_budget_formatter_report (py : PyRepr) (ext : Backends)
  (st : AgentState) (w : World) (e : string)
  (Herr : error st = Some e) (Hne : e <> EmptyString)
  (Hrc : 2 <= retry_count st) :
  check_execution st = format_answer
  /\ format_answer_node py ext st w
     = (answer_update ("I encountered an error " ++ e) [AIMessage_class], w)
  /\ u_answer (fst (format_answer_node py ext st w))
     = Some ("I encountered an error " ++ e)
  /\ u_error (fst (format_answer_node py ext st w)) = None.
Proof.
  assert (R : check_execution st = format_answer).
  { unfold check_execution.
    destruct (Nat.ltb_spec (retry_count st) 2) as [L|L]; [lia|].
    now rewrite andb_false_r. }
  rewrite (format_answer_node_error py ext st w Herr Hne).
  repeat split. exact R.
Qed.

Lemma exhausted_budget_formatter_report_witness :
  check_execution runs.exhausted = format_answer
  /\ u_answer
       (fst (format_answer_node runs.py runs.always_failing runs.exhausted
               empty_world))
     = Some ("I encountered an error "
             ++ "Execution failed : 1054 (42S22): Unknown column").
Proof.
  assert (Hne : "Execution failed : 1054 (42S22): Unknown column"
                <> EmptyString) by (intros H; discriminate H).
  destruct (@exhausted_budget_formatter_report runs.py runs.always_failing
              runs.exhausted empty_world _ eq_refl Hne (le_n 2))
    as (H1 & _ & H3 & _).
  split; [exact H1 | exact H3].
Defined.

(** Neither kind of failed run reaches [END] with an error and no
    answer: the stream of the graph raises at its first node, with a
    generator that raises on every call as with an executor that fails
    on every call, and for the state of an exhausted budget the
    formatter does write an answer. *)
Lemma failed_run_not_done :
  generator_always_fails runs.backend_down runs.question runs.students
  /\ stream runs.py runs.backend_down 25 (start runs.question runs.students)
     = Raise "generate_sql_node() missing 1 required positional argument: 'llm'"
  /\ executor_always_fails runs.always_failing
  /\ stream runs.py runs.always_failing 25
       (start runs.question runs.students)
     = Raise "generate_sql_node() missing 1 required positional argument: 'llm'"
  /\ u_answer
       (fst (format_answer_node runs.py runs.always_failing runs.exhausted
               empty_world))
     = Some "I encountered an error Execution failed : 1054 (42S22): Unknown column".
Proof.
  split; [intros n; exists "Connection error."; reflexivity|].
  split; [reflexivity|].
  split; [intros n q; reflexivity|].
  split; reflexivity.
Qed.

(** ** The evaluator on a failed state *)




(** ** The repair path of [execute_sql_node] *)

(** C9. Repaired SQL bypasses the safety gate. The injection check is
    made once, on the candidate found in the state; when that candidate
    passes it, its execution fails and the budget allows a repair, the
    cleaned repair output is handed to the executor even if the check
    would reject it, and the node does not answer with the gate's error;
    when that second execution succeeds the repaired statement and its
    result are stored. *)
Theorem repaired_sql_bypasses_gate (py : PyRepr) (ext : Backends)
  (st : AgentState) (w : World) (sql raw fixed : string)
  (Hsql : sql_query st = Some sql)
  (Huse : usable sql)
  (Hrc : retry_count st < 2)
  (Hfail : success (execute_query ext (List.length (db_log w)) sql) = false)
  (Hfix : llm ext (List.length (llm_log w))
            (FixSqlPrompt
               (data (execute_query ext (List.length (db_log w)) sql))
               sql (schema st))
          = Ok raw)
  (Hclean : clean_sql raw = Ok fixed)
  (Hunsafe : unsafe_sql fixed = true) :
  db_log (snd (execute_sql_node py ext st w)) = (db_log w ++ [sql; fixed])%list
  /\ u_error (fst (execute_sql_node py ext st w))
     <> Some "Unsafe SQL detected"
  /\ (success (execute_query ext (S (List.length (db_log w))) fixed) = true ->
      u_sql_query (fst (execute_sql_node py ext st w)) = Some fixed
      /\ u_results (fst (execute_sql_node py ext st w)) <> None
      /\ u_error (fst (execute_sql_node py ext st w)) = None).
Proof.
  destruct Huse as [Hne Hu].
  destruct sql as [|c s]; [contradiction|].
  unfold execute_sql_node. rewrite Hsql, Hu.
  unfold db_execute_query, invoke. cbn [db_log llm_log].
  rewrite Hfail. apply Nat.ltb_lt in Hrc. rewrite Hrc. cbn [negb andb].
  rewrite Hfix, Hclean.
  rewrite length_app. cbn [List.length]. rewrite Nat.add_1_r.
  destruct (success (execute_query ext (S (List.length (db_log w))) fixed))
    eqn:E; cbn [fst snd db_log].
  - rewrite <- app_assoc. split; [reflexivity|].
    split; [intros H; discriminate H|].
    intros _. cbn. repeat split. intros H; discriminate H.
  - rewrite <- app_assoc. split; [reflexivity|].
    split; [apply conclude_not_unsafe|].
    intros H; discriminate H.
Qed.

(** The gate would reject [DROP TABLE students]; as a repair output it is
    executed. *)
Lemma repaired_sql_bypasses_gate_witness :
  unsafe_sql "DROP TABLE students" = true
  /\ db_log (snd (execute_sql_node runs.py
                    (runs.repaired_by_write "DROP TABLE students")
                    (runs.with_sql "SELECT nme FROM students") empty_world))
     = ["SELECT nme FROM students"; "DROP TABLE students"]
  /\ u_sql_query (fst (execute_sql_node runs.py
                         (runs.repaired_by_write "DROP TABLE students")
                         (runs.with_sql "SELECT nme FROM students")
                         empty_world))
     = Some "DROP TABLE students".
Proof.
  assert (Huse : usable "SELECT nme FROM students")
    by (split; [intros H; discriminate H | reflexivity]).
  assert (Hrc : retry_count (runs.with_sql "SELECT nme FROM students") < 2)
    by (simpl; lia).
  destruct (repaired_sql_bypasses_gate runs.py
              (runs.repaired_by_write "DROP TABLE students")
              (runs.with_sql "SELECT nme FROM students") empty_world
              (raw := "DROP TABLE students") (fixed := "DROP TABLE students")
              eq_refl Huse Hrc eq_refl eq_refl eq_refl eq_refl)
    as (E1 & _ & E3).
  split; [reflexivity|]. split; [exact E1|].
  apply E3. reflexivity.
Defined.

(** ** The shape of the stored results *)

(** On the path that ends the node, the stored results are normalised:
    the count is the number of rows, and a result without column names is
    stored with no columns, no rows and a count of 0. *)
Lemma conclude_result_shape (py : PyRepr) (rc : nat) (r : QueryResult)
  (rs : ResultSet) :
  u_results (conclude py rc r) = Some rs ->
  row_count rs = len (rows rs)
  /\ (res_columns r = None ->
      columns rs = Some [] /\ rows rs = Rows [] /\ row_count rs = 0).
Proof.
  destruct r as [[[] d] cols]; unfold conclude; cbn; intros H;
    [|discriminate H].
  inversion H; subst; clear H. cbn.
  destruct (truthy_columns cols) eqn:T.
  - split; [reflexivity|]. intros ->. discriminate T.
  - split; [reflexivity|]. auto.
Qed.

(** On both paths the count stored is the length of what is stored as
    rows. *)
Lemma execute_sql_node_row_count (py : PyRepr) (ext : Backends)
  (st : AgentState) (w : World) (rs : ResultSet) :
  u_results (fst (execute_sql_node py ext st w)) = Some rs ->
  row_count rs = len (rows rs).
Proof.
  unfold execute_sql_node.
  destruct (sql_query st) as [[|c s]|]; try (intros H; discriminate H).
  destruct (unsafe_sql (String c s)); [intros H; discriminate H|].
  unfold db_execute_query, invoke.
  destruct (negb (success _) && (retry_count st <? 2)).
  - destruct (llm ext _ _) as [raw|e].
    + destruct (clean_sql raw) as [fixed|e].
      * destruct (success (execute_query ext _ fixed)); cbn [fst].
        -- cbn. intros H. inversion H. reflexivity.
        -- intros H. now apply conclude_result_shape in H.
      * cbn [fst]. intros H. now apply conclude_result_shape in H.
    + cbn [fst]. intros H. now apply conclude_result_shape in H.
  - cbn [fst]. intros H. now apply conclude_result_shape in H.
Qed.

(** What the repair path stores when the repaired statement succeeds:
    the executor's answer, as it is. *)
Lemma repair_path_result (py : PyRepr) (ext : Backends)
  (st : AgentState) (w : World) (sql raw fixed : string) :
  sql_query st = Some sql -> usable sql -> retry_count st < 2 ->
  success (execute_query ext (List.length (db_log w)) sql) = false ->
  llm ext (List.length (llm_log w))
    (FixSqlPrompt (data (execute_query ext (List.length (db_log w)) sql))
       sql (schema st))
  = Ok raw ->
  clean_sql raw = Ok fixed ->
  success (execute_query ext (S (List.length (db_log w))) fixed) = true ->
  u_results (fst (execute_sql_node py ext st w))
  = Some {| columns :=
              res_columns (execute_query ext (S (List.length (db_log w))) fixed);
            rows := data (execute_query ext (S (List.length (db_log w))) fixed);
            row_count :=
              len (data (execute_query ext (S (List.length (db_log w))) fixed)) |}.
Proof.
  intros Hsql [Hne Hu] Hrc Hfail Hfix Hclean Hok.
  destruct sql as [|c s]; [contradiction|].
  unfold execute_sql_node. rewrite Hsql, Hu.
  unfold db_execute_query, invoke. cbn [db_log llm_log].
  rewrite Hfail. apply Nat.ltb_lt in Hrc. rewrite Hrc. cbn [negb andb].
  rewrite Hfix, Hclean.
  rewrite length_app. cbn [List.length]. rewrite Nat.add_1_r.
  now rewrite Hok.
Qed.

(** C6. ResultSet shape invariant. The repair path stores the executor's
    answer as it is: when the repaired statement is a write, which the
    executor answers with [(true, "Query executed successfully", None)],
    the stored result has [None] for columns, the message for rows and
    the length of the message, 27, for the count, not empty columns,
    empty rows and 0. *)
Theorem repair_path_stores_raw_result :
  u_results
    (fst (execute_sql_node runs.py
            (runs.repaired_by_write "UPDATE t SET x=1")
            (runs.with_sql "SELECT nme FROM students") empty_world))
  = Some {| columns := None;
            rows := Text "Query executed successfully";
            row_count := 27 |}
  /\ db_log
       (snd (execute_sql_node runs.py
               (runs.repaired_by_write "UPDATE t SET x=1")
               (runs.with_sql "SELECT nme FROM students") empty_world))
     = ["SELECT nme FROM students"; "UPDATE t SET x=1"].
Proof. split; reflexivity. Qed.

(** ** A success after a recorded failure *)

Lemma execute_sql_node_first_success (py : PyRepr) (ext : Backends)
  (st : AgentState) (w : World) (sql : string) :
  sql_query st = Some sql -> usable sql ->
  success (execute_query ext (List.length (db_log w)) sql) = true ->
  execute_sql_node py ext st w
  = (conclude py (retry_count st)
       (execute_query ext (List.length (db_log w)) sql),
     {| llm_log := llm_log w; db_log := db_log w ++ [sql];
        scorer_log := scorer_log w |}).
Proof.
  intros Hs [Hne Hu] Hok.
  destruct sql as [|c s]; [contradiction|].
  unfold execute_sql_node. rewrite Hs, Hu.
  unfold db_execute_query. now rewrite Hok.
Qed.

(** C2. A recorded error survives a later success. When the state holds
    the error of an earlier failure and the execution of the candidate
    succeeds, the update of [execute_sql_node] has no [error] key, so
    the merged state holds the results and still the error; the router
    then goes back to the generator while fewer than two rounds are
    counted, and the formatter, on that state, answers with the old
    error without reading the results. *)
Theorem stale_error_kept_after_success (py : PyRepr) (ext : Backends)
  (st : AgentState) (w : World) (e sql : string)
  (Herr : error st = Some e) (Hne : e <> EmptyString)
  (Hmsgs : forallb is_message (messages st) = true)
  (Hsql : sql_query st = Some sql) (Huse : usable sql)
  (Hok : success (execute_query ext (List.length (db_log w)) sql) = true) :
  u_error (fst (execute_sql_node py ext st w)) = None
  /\ exists st',
      merge st (fst (execute_sql_node py ext st w)) = Ok st'
      /\ results st' <> None
      /\ error st' = Some e
      /\ retry_count st' = retry_count st
      /\ (retry_count st < 2 -> check_execution st' = generate_sql)
      /\ forall w',
          format_answer_node py ext st' w'
          = (answer_update ("I encountered an error " ++ e)
               [AIMessage_class], w').
Proof.
  rewrite (execute_sql_node_first_success py ext st w Hsql Huse Hok).
  cbn [fst].
  destruct (conclude_success py (retry_count st) _ Hok)
    as (E1 & E2 & E3 & E4).
  split; [exact E1|].
  destruct (@merge_instances st
              (conclude py (retry_count st)
                 (execute_query ext (List.length (db_log w)) sql)))
    as [st' M].
  { exact Hmsgs. }
  { destruct (execute_query ext (List.length (db_log w)) sql)
      as [[sc d] cols].
    unfold success in Hok. cbn in Hok. subst sc. reflexivity. }
  exists st'. split; [exact M|].
  destruct (@merge_Ok _ _ _ M) as (_ & _ & _ & _ & R & _ & Er & Rc & _).
  rewrite E1 in Er. rewrite E2 in Rc. cbn in Er, Rc.
  rewrite Herr in Er.
  assert (Rs : results st' <> None).
  { rewrite R.
    destruct (execute_query ext (List.length (db_log w)) sql)
      as [[sc d] cols].
    unfold success in Hok. cbn in Hok. subst sc. cbn.
    intros H. discriminate H. }
  split; [exact Rs|]. split; [exact Er|]. split; [exact Rc|].
  split.
  - intros L. unfold check_execution. rewrite Er, Rc.
    destruct e as [|a s]; [contradiction|]. cbn [truthy].
    destruct (Nat.ltb_spec (retry_count st) 2) as [_|G]; [reflexivity|lia].
  - intros w'. exact (format_answer_node_error py ext st' w' Er Hne).
Qed.

Lemma stale_error_kept_after_success_witness :
  exists st',
    merge cases.after_one_failure
      (fst (execute_sql_node runs.py cases.happy cases.after_one_failure
              empty_world))
    = Ok st'
    /\ results st' <> None
    /\ check_execution st' = generate_sql
    /\ u_answer (fst (format_answer_node runs.py cases.happy st' empty_world))
       = Some ("I encountered an error "
               ++ "Execution failed : 1054 (42S22): Unknown column").
Proof.
  assert (Hne : "Execution failed : 1054 (42S22): Unknown column"
                <> EmptyString) by (intros H; discriminate H).
  assert (Huse : usable "SELECT nme FROM students").
  { split; [intros H; discriminate H | reflexivity]. }
  destruct (@stale_error_kept_after_success runs.py cases.happy
              cases.after_one_failure empty_world _ _
              eq_refl Hne eq_refl eq_refl Huse eq_refl)
    as (_ & st' & M & R & _ & _ & C & F).
  exists st'. split; [exact M|]. split; [exact R|].
  split; [apply C; cbn; lia|].
  rewrite (F empty_world). reflexivity.
Defined.

(** * More of the code *)

(** ** What each node writes and calls *)

Section Frames.

Variable py : PyRepr.
Variable ext : Backends.

(** The generator calls the backend once and nothing else; it writes a
    candidate or a non-empty error, and nothing else. *)
Lemma generate_sql_node_frame (st : AgentState) (w : World) :
  let r := generate_sql_node ext st w in
  u_results (fst r) = None /\ u_answer (fst r) = None
  /\ u_retry_count (fst r) = None /\ u_evaluation_score (fst r) = None
  /\ ((u_sql_query (fst r) <> None /\ u_error (fst r) = None)
      \/ (u_sql_query (fst r) = None /\ truthy (u_error (fst r)) = true))
  /\ llm_log (snd r)
     = (llm_log w ++ [GenerateSqlPrompt (schema st) (user_query st)])%list
  /\ db_log (snd r) = db_log w
  /\ scorer_log (snd r) = scorer_log w.
Proof.
  unfold generate_sql_node, invoke.
  destruct (llm ext _ _) as [raw|e]; [destruct (clean_sql raw) as [sql|e]|];
    cbn; repeat split; auto; left; split; auto; intros H; discriminate H.
Qed.

Lemma conclude_update_ok (rc : nat) (r : QueryResult) :
  exec_update_ok rc (conclude py rc r).
Proof.
  destruct r as [[[] d] cols]; unfold conclude, exec_update_ok; cbn;
    repeat split; auto.
  right. split; [reflexivity | intros H; discriminate H].
Qed.

Lemma error_update_ok (rc : nat) (c : ascii) (msg : string) :
  exec_update_ok rc (error_update (String c msg)).
Proof. unfold exec_update_ok, error_update. cbn. repeat split; auto. Qed.

(** What one execution of the execution node calls and writes. *)
Lemma execute_sql_node_frame (st : AgentState) (w : World) :
  let r := execute_sql_node py ext st w in
  exec_update_ok (retry_count st) (fst r)
  /\ scorer_log (snd r) = scorer_log w
  /\ (exists calls, db_log (snd r) = (db_log w ++ calls)%list
                    /\ List.length calls <= 2
                    /\ (2 <= retry_count st -> List.length calls <= 1))
  /\ (exists prompts, llm_log (snd r) = (llm_log w ++ prompts)%list
                      /\ List.length prompts <= 1
                      /\ (2 <= retry_count st -> prompts = [])).
Proof.
  unfold execute_sql_node.
  destruct (sql_query st) as [[|c s]|].
  1, 3: cbn [fst snd]; split; [apply error_update_ok|];
    split; [reflexivity|];
    split; exists []; rewrite app_nil_r; cbn; auto.
  destruct (unsafe_sql (String c s)).
  { cbn [fst snd]. split; [apply error_update_ok|].
    split; [reflexivity|].
    split; exists []; rewrite app_nil_r; cbn; auto. }
  unfold db_execute_query, invoke.
  destruct (Nat.ltb_spec (retry_count st) 2) as [L|L].
  - destruct (negb (success _)); cbn [andb].
    + destruct (llm ext _ _) as [raw|e].
      * destruct (clean_sql raw) as [fixed|e].
        -- destruct (success (execute_query ext _ fixed)); cbn [fst snd].
           ++ split.
              { unfold exec_update_ok. cbn. repeat split; auto.
                right. split; [reflexivity | intros H; discriminate H]. }
              split; [reflexivity|].
              split; [exists [String c s; fixed] | eexists [_]]; cbn;
                rewrite <- ?app_assoc; repeat split; auto; lia.
           ++ split; [apply conclude_update_ok|].
              split; [reflexivity|].
              split; [exists [String c s; fixed] | eexists [_]]; cbn;
                rewrite <- ?app_assoc; repeat split; auto; lia.
        -- cbn [fst snd]. split; [apply conclude_update_ok|].
           split; [reflexivity|].
           split; [exists [String c s] | eexists [_]]; cbn;
             repeat split; auto; lia.
      * cbn [fst snd]. split; [apply conclude_update_ok|].
        split; [reflexivity|].
        split; [exists [String c s] | eexists [_]]; cbn;
          repeat split; auto; lia.
    + cbn [fst snd]. split; [apply conclude_update_ok|].
      split; [reflexivity|].
      split; [exists [String c s] | exists []]; cbn;
        rewrite ?app_nil_r; repeat split; auto.
  - rewrite andb_false_r. cbn [fst snd].
    split; [apply conclude_update_ok|].
    split; [reflexivity|].
    split; [exists [String c s] | exists []]; cbn;
      rewrite ?app_nil_r; repeat split; auto.
Qed.

(** The formatter always writes an answer and nothing else; it calls the
    backend at most once, and neither the executor nor the scorer. *)
Lemma format_answer_node_frame (st : AgentState) (w : World) :
  let r := format_answer_node py ext st w in
  u_answer (fst r) <> None
  /\ u_error (fst r) = None /\ u_retry_count (fst r) = None
  /\ u_results (fst r) = None /\ u_sql_query (fst r) = None
  /\ u_evaluation_score (fst r) = None
  /\ db_log (snd r) = db_log w /\ scorer_log (snd r) = scorer_log w
  /\ (forall e, error st = Some e -> e <> EmptyString ->
                u_answer (fst r) = Some ("I encountered an error " ++ e)
                /\ snd r = w).
Proof.
  unfold format_answer_node.
  destruct (error st) as [[|c e]|] eqn:E; cbn -[append].
  2: { repeat match goal with |- _ /\ _ => split end; auto;
         try (intros H0; discriminate H0).
       intros e' He' _. inversion He'. split; reflexivity. }
  all: destruct (results st) as [rs|]; cbn -[append];
    [destruct (sql_query st) as [sql|]; cbn -[append];
     [unfold invoke; destruct (llm ext _ _); cbn -[append]|]|];
    repeat match goal with |- _ /\ _ => split end; auto;
    try (intros H0; discriminate H0);
    try (intros e' He' Hne'; inversion He'; subst; contradiction).
Qed.

(** The evaluator calls the scorer at most once. *)
Lemma evaluate_node_scorer (st : AgentState) (w : World) :
  exists samples,
    scorer_log (snd (evaluate_node py ext st w))
    = (scorer_log w ++ samples)%list
    /\ List.length samples <= 1.
Proof.
  unfold evaluate_node, score.
  destruct (answer st) as [[|a s]|];
    try (exists []; cbn; split; [now rewrite app_nil_r | lia]).
  destruct (sql_query st) as [[|b t]|];
    try (exists []; cbn; split; [now rewrite app_nil_r | lia]).
  destruct (single_turn_score ext _ _); eexists [_]; cbn; auto.
Qed.

End Frames.

(** ** Candidates that cannot be executed, and the reducer *)

Section Unexecutable.

Variable py : PyRepr.
Variable ext : Backends.

(** X14. A candidate that cannot be executed is not counted as a round.
    When the state holds no candidate (none, or the empty text) or one
    the injection check rejects, the execution node makes no call and
    returns only the error, [No SQL to execute] or [Unsafe SQL detected];
    merged, that update leaves [retry_count] and the candidate where
    they were, and the router asks for a new generation whenever fewer
    than two rounds are counted. *)
Theorem unexecutable_candidate_not_counted (st : AgentState) (w : World)
  (Hmsgs : forallb is_message (messages st) = true)
  (Hbad : truthy (sql_query st) = false
          \/ exists sql, sql_query st = Some sql /\ unsafe_sql sql = true) :
  exists msg st',
    (msg = "No SQL to execute" \/ msg = "Unsafe SQL detected")
    /\ execute_sql_node py ext st w = (error_update msg, w)
    /\ merge st (error_update msg) = Ok st'
    /\ error st' = Some msg
    /\ retry_count st' = retry_count st
    /\ sql_query st' = sql_query st
    /\ (retry_count st < 2 -> check_execution st' = generate_sql).
Proof.
  assert (K : forall msg,
             (msg = "No SQL to execute" \/ msg = "Unsafe SQL detected") ->
             exists st',
               merge st (error_update msg) = Ok st'
               /\ error st' = Some msg
               /\ retry_count st' = retry_count st
               /\ sql_query st' = sql_query st
               /\ (retry_count st < 2 -> check_execution st' = generate_sql)).
  { intros msg Hm.
    destruct (@merge_instances st (error_update msg) Hmsgs eq_refl)
      as [st' M].
    exists st'. split; [exact M|].
    destruct (@merge_Ok _ _ _ M) as (_ & _ & _ & Q & _ & _ & E & R & _).
    cbn in Q, E, R.
    repeat match goal with |- _ /\ _ => split end; auto.
    intros L. unfold check_execution. rewrite E, R.
    destruct (Nat.ltb_spec (retry_count st) 2) as [_|G]; [|lia].
    destruct Hm as [-> | ->]; reflexivity. }
  assert (X : exists msg,
             (msg = "No SQL to execute" \/ msg = "Unsafe SQL detected")
             /\ execute_sql_node py ext st w = (error_update msg, w)).
  { unfold execute_sql_node.
    destruct Hbad as [H | (sql & Hs & Hu)].
    - exists "No SQL to execute". split; [now left|].
      destruct (sql_query st) as [[|a s]|]; try reflexivity. discriminate H.
    - rewrite Hs. destruct sql as [|a s].
      + exists "No SQL to execute". split; [now left | reflexivity].
      + rewrite Hu. exists "Unsafe SQL detected".
        split; [now right | reflexivity]. }
  destruct X as (msg & Hm & X).
  destruct (K msg Hm) as (st' & M & H).
  exists msg, st'. auto.
Qed.

(** X25. The formatter's error report cannot be stored. In its error
    branch the formatter returns the class [AIMessage] under [messages],
    not an instance; the reducer of [messages] rejects it, so merging
    that update raises instead of putting the answer in the state. *)
Theorem formatter_error_update_rejected (st : AgentState) (w : World)
  (Herr : truthy (error st) = true) :
  u_messages (fst (format_answer_node py ext st w)) = [AIMessage_class]
  /\ merge st (fst (format_answer_node py ext st w))
     = Raise unsupported_message.
Proof.
  unfold format_answer_node. rewrite Herr. cbn [fst answer_update].
  split; [reflexivity|].
  unfold merge, add_messages. cbn [u_messages forallb is_message].
  now rewrite andb_false_r.
Qed.

End Unexecutable.

(** ** Failed regenerations and failed repairs *)

Section FailedAttempts.

Variable py : PyRepr.
Variable ext : Backends.

(** X17. A regeneration that raises leaves the previous candidate to be
    executed again. When the generator chain raises while the state
    holds a usable candidate, the generator's update carries the error
    and no [sql_query]; merged, the state still holds the old candidate
    and counts no new round, and the execution node, on that state,
    hands that same statement to the executor first. *)
Theorem failed_regeneration_reuses_candidate (st : AgentState) (w : World)
  (old msg : string)
  (Hmsgs : forallb is_message (messages st) = true)
  (Hsql : sql_query st = Some old)
  (Huse : usable old)
  (Hraise : llm ext (List.length (llm_log w))
              (GenerateSqlPrompt (schema st) (user_query st)) = Raise msg) :
  u_sql_query (fst (generate_sql_node ext st w)) = None
  /\ u_error (fst (generate_sql_node ext st w))
     = Some ("SQL generation failed : " ++ msg)
  /\ exists st',
      merge st (fst (generate_sql_node ext st w)) = Ok st'
      /\ sql_query st' = Some old
      /\ error st' = Some ("SQL generation failed : " ++ msg)
      /\ retry_count st' = retry_count st
      /\ exists rest,
          db_log (snd (execute_sql_node py ext st'
                         (snd (generate_sql_node ext st w))))
          = (db_log w ++ old :: rest)%list.
Proof.
  assert (G : generate_sql_node ext st w
              = ({| u_messages := [AIMessage ("Error : " ++ msg)];
                    u_sql_query := None; u_results := None;
                    u_answer := None;
                    u_error := Some ("SQL generation failed : " ++ msg);
                    u_retry_count := None; u_evaluation_score := None |},
                 {| llm_log :=
                      llm_log w
                      ++ [GenerateSqlPrompt (schema st) (user_query st)];
                    db_log := db_log w; scorer_log := scorer_log w |})).
  { unfold generate_sql_node, invoke. now rewrite Hraise. }
  rewrite G. cbn [fst snd u_sql_query u_error].
  split; [reflexivity|]. split; [reflexivity|].
  match goal with
  | |- context [merge st ?u] =>
      destruct (@merge_instances st u Hmsgs eq_refl) as [st' M]
  end.
  exists st'. split; [exact M|].
  destruct (@merge_Ok _ _ _ M) as (_ & _ & _ & Q & _ & _ & E & R & _).
  cbn in Q, E, R. rewrite Hsql in Q.
  split; [exact Q|]. split; [exact E|]. split; [exact R|].
  destruct Huse as [Hne Hu]. destruct old as [|a s]; [contradiction|].
  match goal with
  | |- context [execute_sql_node py ext st' ?w'] =>
      destruct (execute_sql_node_passes py ext st' w' (c := a) (s := s))
        as (_ & rest & X)
  end.
  - exact Q.
  - exact Hu.
  - exists rest. exact X.
Qed.

(** X5. After a repair whose execution fails too, the error stored is the
    failure of the repaired statement, while the state keeps the original
    candidate: the node returns no [sql_query], and one round is
    counted. *)
Theorem failed_repair_reports_repaired_failure (st : AgentState) (w : World)
  (sql raw fixed : string)
  (Hsql : sql_query st = Some sql)
  (Huse : usable sql)
  (Hrc : retry_count st < 2)
  (Hfail : success (execute_query ext (List.length (db_log w)) sql) = false)
  (Hfix : llm ext (List.length (llm_log w))
            (FixSqlPrompt
               (data (execute_query ext (List.length (db_log w)) sql))
               sql (schema st))
          = Ok raw)
  (Hclean : clean_sql raw = Ok fixed)
  (Hfail2 : success (execute_query ext (S (List.length (db_log w))) fixed)
            = false) :
  let u := fst (execute_sql_node py ext st w) in
  u_error u
  = Some ("Execution failed : "
          ++ str_data py
               (data (execute_query ext (S (List.length (db_log w))) fixed)))
  /\ u_sql_query u = None
  /\ u_results u = None
  /\ u_retry_count u = Some (retry_count st + 1).
Proof.
  destruct Huse as [Hne Hu].
  destruct sql as [|c s]; [contradiction|].
  unfold execute_sql_node. rewrite Hsql, Hu.
  unfold db_execute_query, invoke. cbn [db_log llm_log].
  rewrite Hfail. apply Nat.ltb_lt in Hrc. rewrite Hrc. cbn [negb andb].
  rewrite Hfix, Hclean.
  rewrite length_app. cbn [List.length]. rewrite Nat.add_1_r.
  rewrite Hfail2. cbn [fst].
  rewrite (conclude_failure py _ _ Hfail2). cbn -[append]. auto.
Qed.

(** X6. When the repair chain raises, the repaired statement is never
    executed and the error stored is the failure of the original
    candidate. *)
Theorem raised_repair_reports_original_failure (st : AgentState) (w : World)
  (sql msg : string)
  (Hsql : sql_query st = Some sql)
  (Huse : usable sql)
  (Hrc : retry_count st < 2)
  (Hfail : success (execute_query ext (List.length (db_log w)) sql) = false)
  (Hfix : llm ext (List.length (llm_log w))
            (FixSqlPrompt
               (data (execute_query ext (List.length (db_log w)) sql))
               sql (schema st))
          = Raise msg) :
  u_error (fst (execute_sql_node py ext st w))
  = Some ("Execution failed : "
          ++ str_data py
               (data (execute_query ext (List.length (db_log w)) sql)))
  /\ u_retry_count (fst (execute_sql_node py ext st w))
     = Some (retry_count st + 1)
  /\ db_log (snd (execute_sql_node py ext st w)) = (db_log w ++ [sql])%list.
Proof.
  destruct Huse as [Hne Hu].
  destruct sql as [|c s]; [contradiction|].
  unfold execute_sql_node. rewrite Hsql, Hu.
  unfold db_execute_query, invoke. cbn [db_log llm_log].
  rewrite Hfail. apply Nat.ltb_lt in Hrc. rewrite Hrc. cbn [negb andb].
  rewrite Hfix. cbn [fst snd].
  rewrite (conclude_failure py _ _ Hfail). cbn -[append]. auto.
Qed.

End FailedAttempts.

(** ** The driver calls of the executor *)

Lemma executed_app (a b : list manager.Event) :
  schema.executed (a ++ b) = (schema.executed a ++ schema.executed b)%list.
Proof.
  induction a as [|ev a IH]; [reflexivity|].
  destruct ev; cbn; now rewrite ?IH.
Qed.

Lemma count_app (f : manager.Event -> bool) (a b : list manager.Event) :
  schema.count f (a ++ b) = schema.count f a + schema.count f b.
Proof.
  unfold schema.count. now rewrite filter_app, length_app.
Qed.

Section ExecutorCalls.

Variables Server Conn Cursor : Type.
Variable drv : manager.Driver Server Conn Cursor.

Ltac close_attempt :=
  match goal with
  | H : (_, _) = (_, _) |- _ => inversion H; subst; clear H
  end;
  split; [simpl; congruence|];
  eexists; split;
  [simpl; rewrite <- ?app_assoc; simpl; reflexivity
  |unfold schema.attempt_calls;
   match goal with
   | R : startswith_any _ _ = _ |- _ => rewrite R
   end;
   cbn;
   repeat match goal with |- _ /\ _ => split end; auto;
   intros; congruence].

Lemma try_body_calls (query : string) (e e' : manager.Env Server Conn)
  (res : Res QueryResult) :
  manager.try_body drv query (upper (strip query)) e = (res, e') ->
  manager.connection e' = manager.connection e
  /\ exists d, manager.trace e' = (manager.trace e ++ d)%list
               /\ schema.attempt_calls query d.
Proof.
  unfold manager.try_body.
  destruct (manager.connection e) as [conn|] eqn:C.
  2: { intros H. inversion H; subst. split; [exact C|].
       exists []. rewrite app_nil_r. split; [reflexivity|].
       unfold schema.attempt_calls. cbn. auto. }
  destruct (startswith_any (upper (strip query)) manager.read_keywords) eqn:R;
    unfold manager.bind, manager.call, manager.ret; intros H.
  - destruct (manager.cursor drv conn (manager.server e)) as [[cur|m] s1];
      cbn in H; [|close_attempt].
    destruct (manager.execute drv cur query s1) as [[[]|m] s2];
      cbn in H; [|close_attempt].
    destruct (manager.fetchall drv cur s2) as [[rws|m] s3];
      cbn in H; [|close_attempt].
    destruct (manager.description drv cur s3) as [cols|];
      cbn in H; [|close_attempt].
    destruct (manager.close drv cur s3) as [[[]|m] s4];
      cbn in H; close_attempt.
  - destruct (manager.cursor drv conn (manager.server e)) as [[cur|m] s1];
      cbn in H; [|close_attempt].
    destruct (manager.execute drv cur query s1) as [[[]|m] s2];
      cbn in H; [|close_attempt].
    destruct (manager.commit drv conn s2) as [[[]|m] s3];
      cbn in H; [|close_attempt].
    destruct (manager.close drv cur s3) as [[[]|m] s4];
      cbn in H; close_attempt.
Qed.

Lemma connect_calls (e : manager.Env Server Conn) :
  manager.trace (snd (manager.connect drv e))
  = (manager.trace e ++ [manager.EvConnect])%list.
Proof.
  unfold manager.connect.
  destruct (manager.mysql_connect drv (manager.server e)) as [[c|m] sv];
    reflexivity.
Qed.

Lemma ensure_connection_calls (e : manager.Env Server Conn) :
  manager.trace (manager.ensure_connection drv e) = manager.trace e
  \/ manager.trace (manager.ensure_connection drv e)
     = (manager.trace e ++ [manager.EvConnect])%list.
Proof.
  unfold manager.ensure_connection.
  destruct (manager.connection e) as [c|].
  - destruct (manager.is_connected drv c (manager.server e)) as [[] sv].
    + now left.
    + right. now rewrite connect_calls.
  - right. apply connect_calls.
Qed.

(** X18. The driver calls of one [execute_query]. Whatever the driver
    answers, the statement is sent at most twice and nothing else is
    sent, the manager connects at most twice, a statement classified as a
    read is never followed by a commit, and one classified as a write is
    never fetched. *)
Theorem execute_query_calls (query : string) (e0 : manager.Env Server Conn) :
  exists d,
    manager.trace (snd (manager.execute_query drv query e0))
    = (manager.trace e0 ++ d)%list
    /\ List.length (schema.executed d) <= 2
    /\ Forall (eq query) (schema.executed d)
    /\ schema.count schema.is_connect d <= 2
    /\ (startswith_any (upper (strip query)) manager.read_keywords = true ->
        schema.count schema.is_commit d = 0)
    /\ (startswith_any (upper (strip query)) manager.read_keywords = false ->
        schema.count schema.is_fetchall d = 0).
Proof.
  assert (A : forall d, schema.attempt_calls query d ->
                        List.length (schema.executed d) <= 1
                        /\ Forall (eq query) (schema.executed d)).
  { intros d (_ & [E|E] & _); rewrite E; cbn; auto. }
  assert (P : forall d0,
             d0 = [] \/ d0 = [manager.EvConnect] ->
             schema.executed d0 = []
             /\ schema.count schema.is_connect d0 <= 1
             /\ schema.count schema.is_commit d0 = 0
             /\ schema.count schema.is_fetchall d0 = 0).
  { intros d0 [-> | ->]; cbn; auto. }
  unfold manager.execute_query. cbv zeta.
  assert (exists d0, manager.trace (manager.ensure_connection drv e0)
                     = (manager.trace e0 ++ d0)%list
                     /\ (d0 = [] \/ d0 = [manager.EvConnect]))
    as (d0 & T0 & H0).
  { destruct (ensure_connection_calls e0) as [H|H].
    - exists []. rewrite app_nil_r. auto.
    - exists [manager.EvConnect]. auto. }
  destruct (P d0 H0) as (P1 & P2 & P3 & P4).
  destruct (manager.try_body drv query _ (manager.ensure_connection drv e0))
    as [res e2] eqn:E1.
  destruct (try_body_calls _ _ E1) as (_ & d1 & T1 & A1).
  destruct (A d1 A1) as (L1 & F1).
  destruct A1 as (K1 & _ & C1 & G1).
  assert (one : exists d,
             manager.trace e2 = (manager.trace e0 ++ d)%list
             /\ List.length (schema.executed d) <= 2
             /\ Forall (eq query) (schema.executed d)
             /\ schema.count schema.is_connect d <= 2
             /\ (startswith_any (upper (strip query)) manager.read_keywords
                 = true -> schema.count schema.is_commit d = 0)
             /\ (startswith_any (upper (strip query)) manager.read_keywords
                 = false -> schema.count schema.is_fetchall d = 0)).
  { exists (d0 ++ d1)%list. rewrite T1, T0, <- app_assoc.
    rewrite executed_app, !count_app, P1, P3, P4, K1. cbn [app].
    repeat match goal with |- _ /\ _ => split end; auto; try lia. }
  destruct res as [r|msg]; [exact one|].
  destruct (manager.connection_dropped msg); [|exact one].
  destruct (manager.try_body drv query _ (snd (manager.connect drv e2)))
    as [res2 e4] eqn:E2.
  destruct (try_body_calls _ _ E2) as (_ & d2 & T2 & A2).
  destruct (A d2 A2) as (L2 & F2).
  destruct A2 as (K2 & _ & C2 & G2).
  exists (d0 ++ d1 ++ [manager.EvConnect] ++ d2)%list.
  assert (T : manager.trace e4
              = (manager.trace e0 ++ d0 ++ d1 ++ [manager.EvConnect] ++ d2)%list).
  { rewrite T2, connect_calls, T1, T0. now rewrite <- !app_assoc. }
  assert (X : forall r : QueryResult,
             manager.trace (snd (r, e4))
             = (manager.trace e0 ++ d0 ++ d1 ++ [manager.EvConnect] ++ d2)%list)
    by (intros r; exact T).
  rewrite !executed_app, !count_app, P1, P3, P4, K1, K2.
  cbn [app schema.executed schema.count filter schema.is_connect
       schema.is_commit schema.is_fetchall List.length].
  destruct res2 as [r|m];
    (split; [apply X|]);
    rewrite length_app;
    repeat match goal with |- _ /\ _ => split end; auto; try lia;
    try (apply Forall_app; split; assumption);
    try (intros R; rewrite ?(C1 R), ?(C2 R), ?(G1 R), ?(G2 R); reflexivity).
Qed.

(** X20. A failure of [execute_query] carries the text of the exception
    that ended it. When the result is a failure, the first attempt
    raised; if its text does not tell of a dropped connection, that text
    is the data of the result; if it does, the attempt made after the
    reconnection raised too, and the data is the text of that second
    exception. In both cases there are no columns. *)
Theorem execute_query_failure_shape (query : string)
  (e0 : manager.Env Server Conn) :
  let r := fst (manager.execute_query drv query e0) in
  let first :=
    manager.try_body drv query (upper (strip query))
      (manager.ensure_connection drv e0) in
  success r = false ->
  exists msg,
    fst first = Raise msg
    /\ if manager.connection_dropped msg
       then
         exists retry_error,
           fst (manager.try_body drv query (upper (strip query))
                  (snd (manager.connect drv (snd first))))
           = Raise retry_error
           /\ r = (false, Text retry_error, None)
       else r = (false, Text msg, None).
Proof.
  unfold manager.execute_query. cbv zeta.
  destruct (manager.try_body drv query _ (manager.ensure_connection drv e0))
    as [[r|msg] e2] eqn:E1.
  - pose proof (try_body_ok drv _ _ E1) as H. cbn [fst].
    destruct (startswith_any _ _).
    + destruct H as (rws & cols & -> & _). intros F. discriminate F.
    + destruct H as [-> _]. intros F. discriminate F.
  - cbn [fst snd]. intros F. exists msg. split; [reflexivity|].
    destruct (manager.connection_dropped msg); [|reflexivity].
    destruct (manager.try_body drv query _ (snd (manager.connect drv e2)))
      as [[r|msg'] e4] eqn:E2; [|exists msg'; split; reflexivity].
    pose proof (try_body_ok drv _ _ E2) as H. cbn [fst] in F.
    destruct (startswith_any _ _).
    + destruct H as (rws & cols & -> & _). discriminate F.
    + destruct H as [-> _]. discriminate F.
Qed.

(** X21. Without a connection nothing is sent. When the manager has no
    connection and the driver cannot connect, [execute_query] makes one
    connection attempt and no other driver call, does not retry, and
    returns the failure of the attribute access on the missing
    connection. *)
Theorem execute_query_without_connection (query : string)
  (e0 : manager.Env Server Conn) (msg : string) (sv : Server)
  (Hnone : manager.connection e0 = None)
  (Hdown : manager.mysql_connect drv (manager.server e0) = (Raise msg, sv)) :
  manager.execute_query drv query e0
  = ((false, Text "'NoneType' object has no attribute 'cursor'", None),
     {| manager.connection := None; manager.server := sv;
        manager.trace := manager.trace e0 ++ [manager.EvConnect] |}).
Proof.
  unfold manager.execute_query, manager.ensure_connection. cbv zeta.
  rewrite Hnone. unfold manager.connect. rewrite Hdown. cbn [snd].
  unfold manager.try_body. cbn [manager.connection]. rewrite Hnone.
  reflexivity.
Qed.

End ExecutorCalls.

(** ** Schema introspection *)

Lemma append_assoc (a b c : string) : (a ++ b) ++ c = a ++ (b ++ c).
Proof.
  induction a as [|x a IH]; [reflexivity|]. cbn. now rewrite IH.
Qed.

Lemma append_nil_r (a : string) : a ++ EmptyString = a.
Proof.
  induction a as [|x a IH]; [reflexivity|]. cbn. now rewrite IH.
Qed.

Lemma startswith_app (p s : string) : startswith (p ++ s) p = true.
Proof.
  induction p as [|x p IH]; [reflexivity|].
  cbn. now rewrite Ascii.eqb_refl, IH.
Qed.

Section Introspection.

Variables Server Conn Cursor : Type.
Variable drv : manager.Driver Server Conn Cursor.
Variable str_value : Value -> string.
Variable str_row : Row -> string.

Lemma format_columns_extends (cols : list Row) (acc t : string) :
  schema.format_columns str_value cols acc = Ok t ->
  exists suf, t = acc ++ suf.
Proof.
  revert acc. induction cols as [|row cols IH]; intros acc;
    cbn [schema.format_columns].
  - intros H. inversion H. exists EmptyString. now rewrite append_nil_r.
  - destruct row as [|a [|b [|c [|d [|e [|f [|g row]]]]]]];
      try (intros H; discriminate H).
    intros H. apply IH in H as [suf ->].
    eexists. rewrite !append_assoc. reflexivity.
Qed.

Lemma format_samples_extends (samples : list Row) (acc : string) :
  exists suf, schema.format_samples str_row samples acc = acc ++ suf.
Proof.
  revert acc. induction samples as [|row samples IH]; intros acc;
    cbn [schema.format_samples].
  - exists EmptyString. now rewrite append_nil_r.
  - destruct (IH (acc ++ "  " ++ str_row row ++ nl)) as [suf ->].
    eexists. rewrite !append_assoc. reflexivity.
Qed.

(** The statements sent for a list of table names. *)
Lemma describe_tables_calls (cur : Cursor) (tables : list Row) :
  forall (acc : string) (e e' : manager.Env Server Conn) (res : Res string),
    schema.describe_tables drv str_value str_row cur tables acc e = (res, e') ->
    exists d,
      manager.trace e' = (manager.trace e ++ d)%list
      /\ schema.count schema.is_commit d = 0
      /\ schema.count schema.is_connect d = 0
      /\ forall t, res = Ok t ->
           (exists suf, t = acc ++ suf)
           /\ exists names,
               List.length names = List.length tables
               /\ schema.executed d
                  = flat_map (fun n => [schema.describe_statement n;
                                        schema.sample_statement n]) names.
Proof.
  induction tables as [|row tables IH]; intros acc e e' res.
  - cbn. intros H. inversion H; subst. exists []. rewrite app_nil_r.
    repeat match goal with |- _ /\ _ => split end; auto.
    intros t Ht. inversion Ht; subst. split.
    + exists EmptyString. now rewrite append_nil_r.
    + now exists [].
  - assert (Fail : forall (d : list manager.Event) (m : string)
                          (e1 : manager.Env Server Conn),
               manager.trace e1 = (manager.trace e ++ d)%list ->
               schema.count schema.is_commit d = 0 ->
               schema.count schema.is_connect d = 0 ->
               (Raise m, e1) = (res, e') ->
               exists d,
                 manager.trace e' = (manager.trace e ++ d)%list
                 /\ schema.count schema.is_commit d = 0
                 /\ schema.count schema.is_connect d = 0
                 /\ forall t, res = Ok t ->
                      (exists suf, t = acc ++ suf)
                      /\ exists names,
                          List.length names = List.length (row :: tables)
                          /\ schema.executed d
                             = flat_map
                                 (fun n => [schema.describe_statement n;
                                            schema.sample_statement n])
                                 names).
    { intros d m e1 T C1 C2 H. inversion H; subst. exists d.
      repeat match goal with |- _ /\ _ => split end; auto.
      intros t Ht. discriminate Ht. }
    destruct row as [|v [|v2 row]]; cbn [schema.describe_tables].
    + apply (Fail []); auto. now rewrite app_nil_r.
    + unfold manager.bind, manager.call.
      destruct (manager.execute drv cur _ (manager.server e))
        as [[[]|m] s1]; cbn.
      2: { apply (Fail [manager.EvExecute
                          (schema.describe_statement (str_value v))]);
           auto. }
      destruct (manager.fetchall drv cur s1) as [[cols|m] s2]; cbn.
      2: { apply (Fail [manager.EvExecute
                          (schema.describe_statement (str_value v));
                        manager.EvFetchall]); auto.
           cbn. now rewrite <- app_assoc. }
      destruct (schema.format_columns str_value cols _) as [text|m] eqn:FC.
      2: { apply (Fail [manager.EvExecute
                          (schema.describe_statement (str_value v));
                        manager.EvFetchall]); auto.
           cbn. now rewrite <- app_assoc. }
      cbn.
      destruct (manager.execute drv cur _ s2) as [[[]|m] s3]; cbn.
      2: { apply (Fail [manager.EvExecute
                          (schema.describe_statement (str_value v));
                        manager.EvFetchall;
                        manager.EvExecute
                          (schema.sample_statement (str_value v))]); auto.
           cbn. now rewrite <- !app_assoc. }
      destruct (manager.fetchall drv cur s3) as [[samples|m] s4]; cbn.
      2: { apply (Fail [manager.EvExecute
                          (schema.describe_statement (str_value v));
                        manager.EvFetchall;
                        manager.EvExecute
                          (schema.sample_statement (str_value v));
                        manager.EvFetchall]); auto.
           cbn. now rewrite <- !app_assoc. }
      intros H. apply IH in H as (d & T & C1 & C2 & K).
      cbn [manager.trace] in T.
      exists ([manager.EvExecute (schema.describe_statement (str_value v));
               manager.EvFetchall;
               manager.EvExecute (schema.sample_statement (str_value v));
               manager.EvFetchall] ++ d)%list.
      split; [rewrite T, <- !app_assoc; reflexivity|].
      rewrite !count_app, C1, C2, executed_app.
      split; [reflexivity|]. split; [reflexivity|].
      intros t Ht. destruct (K t Ht) as ((suf & ->) & names & L & X).
      split.
      * apply format_columns_extends in FC as [sc ->].
        destruct samples as [|smp samples].
        -- eexists. rewrite !append_assoc. reflexivity.
        -- match goal with
           | |- context [schema.format_samples str_row ?l ?a] =>
               destruct (format_samples_extends l a) as [ss ->]
           end.
           eexists. rewrite !append_assoc. reflexivity.
      * exists (str_value v :: names). cbn. rewrite L, X. auto.
    + apply (Fail []); auto. now rewrite app_nil_r.
Qed.

(** The body of [get_schema]: what it sends and what it returns. *)
Lemma schema_body_calls (e e' : manager.Env Server Conn) (res : Res string) :
  schema.schema_body drv str_value str_row e = (res, e') ->
  exists d,
    manager.trace e' = (manager.trace e ++ d)%list
    /\ schema.count schema.is_commit d = 0
    /\ schema.count schema.is_connect d = 0
    /\ forall t, res = Ok t ->
         startswith t schema.header = true
         /\ exists names,
             schema.executed d
             = "SHOW TABLES"
               :: flat_map (fun n => [schema.describe_statement n;
                                      schema.sample_statement n]) names.
Proof.
  unfold schema.schema_body.
  assert (Fail : forall (d : list manager.Event) (m : string)
                        (e1 : manager.Env Server Conn),
             manager.trace e1 = (manager.trace e ++ d)%list ->
             schema.count schema.is_commit d = 0 ->
             schema.count schema.is_connect d = 0 ->
             (Raise m, e1) = (res, e') ->
             exists d,
               manager.trace e' = (manager.trace e ++ d)%list
               /\ schema.count schema.is_commit d = 0
               /\ schema.count schema.is_connect d = 0
               /\ forall t, res = Ok t ->
                    startswith t schema.header = true
                    /\ exists names,
                        schema.executed d
                        = "SHOW TABLES"
                          :: flat_map
                               (fun n => [schema.describe_statement n;
                                          schema.sample_statement n]) names).
  { intros d m e1 T C1 C2 H. inversion H; subst. exists d.
    repeat match goal with |- _ /\ _ => split end; auto.
    intros t Ht. discriminate Ht. }
  destruct (manager.connection e) as [conn|].
  2: { apply (Fail []); auto. now rewrite app_nil_r. }
  unfold manager.bind at 1. unfold manager.call at 1.
  destruct (manager.cursor drv conn (manager.server e)) as [[cur|m] s1];
    cbn -[schema.describe_tables schema.header].
  2: { apply (Fail [manager.EvCursor]); auto. }
  unfold manager.bind at 1. unfold manager.call at 1.
  cbn -[schema.describe_tables schema.header].
  destruct (manager.execute drv cur "SHOW TABLES" s1) as [[[]|m] s2];
    cbn -[schema.describe_tables schema.header].
  2: { apply (Fail [manager.EvCursor; manager.EvExecute "SHOW TABLES"]);
       auto. cbn. now rewrite <- app_assoc. }
  unfold manager.bind at 1. unfold manager.call at 1.
  cbn -[schema.describe_tables schema.header].
  destruct (manager.fetchall drv cur s2) as [[tables|m] s3];
    cbn -[schema.describe_tables schema.header].
  2: { apply (Fail [manager.EvCursor; manager.EvExecute "SHOW TABLES";
                    manager.EvFetchall]); auto.
       cbn. now rewrite <- !app_assoc. }
  unfold manager.bind at 1.
  match goal with
  | |- context [schema.describe_tables drv str_value str_row cur tables
                  ?h ?e1] =>
      change h with schema.header;
      destruct (schema.describe_tables drv str_value str_row cur tables
                  schema.header e1) as [r3 e3] eqn:DT
  end.
  apply describe_tables_calls in DT as (d & T & C1 & C2 & K).
  cbn [manager.trace] in T.
  destruct r3 as [text|m].
  2: { apply (Fail ([manager.EvCursor; manager.EvExecute "SHOW TABLES";
                     manager.EvFetchall] ++ d)%list).
       - rewrite T, <- !app_assoc. reflexivity.
       - now rewrite count_app, C1.
       - now rewrite count_app, C2. }
  destruct (K text eq_refl) as ((suf & ->) & names & _ & X).
  unfold manager.bind, manager.call, manager.ret.
  destruct (manager.close drv cur (manager.server e3)) as [[[]|m] s5].
  2: { apply (Fail (([manager.EvCursor; manager.EvExecute "SHOW TABLES";
                      manager.EvFetchall] ++ d) ++ [manager.EvClose])%list).
       - cbn [manager.trace]. rewrite T, <- !app_assoc. reflexivity.
       - now rewrite !count_app, C1.
       - now rewrite !count_app, C2. }
  intros H. inversion H; subst.
  exists (([manager.EvCursor; manager.EvExecute "SHOW TABLES";
            manager.EvFetchall] ++ d) ++ [manager.EvClose])%list.
  cbn [manager.trace]. rewrite T.
  split; [now rewrite <- !app_assoc|].
  rewrite !count_app, C1, C2, !executed_app, X.
  split; [reflexivity|]. split; [reflexivity|].
  intros t Ht. inversion Ht; subst.
  split; [exact (startswith_app schema.header suf)|].
  exists names. cbn. now rewrite app_nil_r.
Qed.

(** X22. What [get_schema] returns and keeps. It returns either the empty
    text, leaving the cached [schema_text] as it was, or a text that
    begins with the header [DATABASE SCHEMA], which it also caches; it
    connects at most once and never commits. *)
Theorem get_schema_result (self : schema.DatabaseManager Server Conn) :
  let r := schema.get_schema drv str_value str_row self in
  ((fst r = EmptyString
    /\ schema.schema_text (snd r) = schema.schema_text self)
   \/ (startswith (fst r) schema.header = true
       /\ schema.schema_text (snd r) = fst r))
  /\ exists d,
      manager.trace (schema.env (snd r))
      = (manager.trace (schema.env self) ++ d)%list
      /\ schema.count schema.is_commit d = 0
      /\ schema.count schema.is_connect d <= 1.
Proof.
  unfold schema.get_schema. cbv zeta.
  destruct (schema.schema_body drv str_value str_row
              (manager.ensure_connection drv (schema.env self)))
    as [res e2] eqn:B.
  apply schema_body_calls in B as (d & T & C1 & C2 & K).
  assert (exists d0,
             manager.trace (manager.ensure_connection drv (schema.env self))
             = (manager.trace (schema.env self) ++ d0)%list
             /\ schema.count schema.is_commit d0 = 0
             /\ schema.count schema.is_connect d0 <= 1)
    as (d0 & T0 & K1 & K2).
  { destruct (ensure_connection_calls drv (schema.env self)) as [H|H].
    - exists []. rewrite app_nil_r. cbn. auto.
    - exists [manager.EvConnect]. cbn. auto. }
  assert (W : exists d1,
             manager.trace e2 = (manager.trace (schema.env self) ++ d1)%list
             /\ schema.count schema.is_commit d1 = 0
             /\ schema.count schema.is_connect d1 <= 1).
  { exists (d0 ++ d)%list. rewrite T, T0, <- app_assoc, !count_app.
    repeat split; auto; lia. }
  destruct res as [text|m]; cbn [fst snd schema.env schema.schema_text].
  - split; [|exact W]. right. split; [|reflexivity]. now apply K.
  - split; [|exact W]. left. auto.
Qed.

(** The statements of a description that goes through: every row of
    [tables] is a single cell, and the tables are described in the order
    of the rows. *)
Lemma describe_tables_statements (cur : Cursor) (tables : list Row) :
  forall (acc : string) (e e' : manager.Env Server Conn) (t : string),
    schema.describe_tables drv str_value str_row cur tables acc e
    = (Ok t, e') ->
    exists cells d,
      tables = map (fun v => [v]) cells
      /\ manager.trace e' = (manager.trace e ++ d)%list
      /\ schema.executed d
         = flat_map (fun v => [schema.describe_statement (str_value v);
                               schema.sample_statement (str_value v)])
             cells.
Proof.
  induction tables as [|row tables IH]; intros acc e e' t.
  - cbn. intros H. inversion H; subst. exists [], [].
    rewrite app_nil_r. auto.
  - destruct row as [|v [|v2 row]]; cbn [schema.describe_tables].
    + intros H. discriminate H.
    + unfold manager.bind, manager.call.
      destruct (manager.execute drv cur _ (manager.server e))
        as [[[]|m] s1]; cbn; [|intros H; discriminate H].
      destruct (manager.fetchall drv cur s1) as [[cols|m] s2]; cbn;
        [|intros H; discriminate H].
      destruct (schema.format_columns str_value cols _) as [text|m];
        [|intros H; discriminate H].
      cbn.
      destruct (manager.execute drv cur _ s2) as [[[]|m] s3]; cbn;
        [|intros H; discriminate H].
      destruct (manager.fetchall drv cur s3) as [[samples|m] s4]; cbn;
        [|intros H; discriminate H].
      intros H. apply IH in H as (cells & d & -> & T & X).
      cbn [manager.trace] in T.
      exists (v :: cells),
        ([manager.EvExecute (schema.describe_statement (str_value v));
          manager.EvFetchall;
          manager.EvExecute (schema.sample_statement (str_value v));
          manager.EvFetchall] ++ d)%list.
      split; [reflexivity|].
      split; [rewrite T, <- !app_assoc; reflexivity|].
      rewrite executed_app, X. reflexivity.
    + intros H. discriminate H.
Qed.

(** The statements of a [try] body of [get_schema] that goes through:
    the tables described are the rows fetched after [SHOW TABLES]. *)
Lemma schema_body_statements (e e' : manager.Env Server Conn) (t : string) :
  schema.schema_body drv str_value str_row e = (Ok t, e') ->
  exists conn cur sv1 sv2 sv3 cells d,
    manager.connection e = Some conn
    /\ manager.cursor drv conn (manager.server e) = (Ok cur, sv1)
    /\ manager.execute drv cur "SHOW TABLES" sv1 = (Ok tt, sv2)
    /\ manager.fetchall drv cur sv2 = (Ok (map (fun v => [v]) cells), sv3)
    /\ manager.trace e' = (manager.trace e ++ d)%list
    /\ schema.executed d
       = "SHOW TABLES"
         :: flat_map (fun v => [schema.describe_statement (str_value v);
                                schema.sample_statement (str_value v)])
              cells.
Proof.
  unfold schema.schema_body.
  destruct (manager.connection e) as [conn|]; [|intros H; discriminate H].
  unfold manager.bind at 1. unfold manager.call at 1.
  destruct (manager.cursor drv conn (manager.server e)) as [[cur|m] s1]
    eqn:EC; cbn -[schema.describe_tables schema.header];
    [|intros H; discriminate H].
  unfold manager.bind at 1. unfold manager.call at 1.
  cbn -[schema.describe_tables schema.header].
  destruct (manager.execute drv cur "SHOW TABLES" s1) as [[[]|m] s2] eqn:EX;
    cbn -[schema.describe_tables schema.header];
    [|intros H; discriminate H].
  unfold manager.bind at 1. unfold manager.call at 1.
  cbn -[schema.describe_tables schema.header].
  destruct (manager.fetchall drv cur s2) as [[tables|m] s3] eqn:EF;
    cbn -[schema.describe_tables schema.header];
    [|intros H; discriminate H].
  unfold manager.bind at 1.
  match goal with
  | |- context [schema.describe_tables drv str_value str_row cur tables
                  ?h ?e1] =>
      change h with schema.header;
      destruct (schema.describe_tables drv str_value str_row cur tables
                  schema.header e1) as [r3 e3] eqn:DT
  end.
  destruct r3 as [text|m]; [|intros H; discriminate H].
  apply describe_tables_statements in DT as (cells & d & -> & T & X).
  cbn [manager.trace] in T.
  unfold manager.bind, manager.call, manager.ret.
  destruct (manager.close drv cur (manager.server e3)) as [[[]|m] s5];
    [|intros H; discriminate H].
  intros H. inversion H; subst.
  exists conn, cur, s1, s2, s3, cells,
    (([manager.EvCursor; manager.EvExecute "SHOW TABLES";
       manager.EvFetchall] ++ d) ++ [manager.EvClose])%list.
  cbn [manager.trace]. rewrite T.
  repeat match goal with |- _ /\ _ => split end; auto.
  - now rewrite <- !app_assoc.
  - rewrite !executed_app, X. cbn. now rewrite app_nil_r.
Qed.

(** X23. The statements of a successful [get_schema]. When it returns a
    non-empty text, it has fetched the rows of [SHOW TABLES], each a
    single cell, and the statements it sent are [SHOW TABLES] and then,
    for each of those rows in turn, [DESCRIBE t] and
    [SELECT * FROM t LIMIT 2] with [t] the text of the cell, and nothing
    else. *)
Theorem get_schema_statements (self : schema.DatabaseManager Server Conn)
  (Hok : fst (schema.get_schema drv str_value str_row self) <> EmptyString) :
  let e1 := manager.ensure_connection drv (schema.env self) in
  exists conn cur sv1 sv2 sv3 cells d,
    manager.connection e1 = Some conn
    /\ manager.cursor drv conn (manager.server e1) = (Ok cur, sv1)
    /\ manager.execute drv cur "SHOW TABLES" sv1 = (Ok tt, sv2)
    /\ manager.fetchall drv cur sv2 = (Ok (map (fun v => [v]) cells), sv3)
    /\ manager.trace
         (schema.env (snd (schema.get_schema drv str_value str_row self)))
       = (manager.trace (schema.env self) ++ d)%list
    /\ schema.executed d
       = "SHOW TABLES"
         :: flat_map (fun v => [schema.describe_statement (str_value v);
                                schema.sample_statement (str_value v)])
              cells.
Proof.
  intros e1. revert Hok. unfold schema.get_schema. cbv zeta. fold e1.
  destruct (schema.schema_body drv str_value str_row e1) as [res e2] eqn:B.
  destruct res as [text|m]; cbn [fst snd schema.env];
    [|intros H; now contradiction H].
  intros _.
  apply schema_body_statements in B
    as (conn & cur & s1 & s2 & s3 & cells & d & H1 & H2 & H3 & H4 & T & X).
  destruct (ensure_connection_calls drv (schema.env self)) as [H|H];
    fold e1 in H.
  - exists conn, cur, s1, s2, s3, cells, d. rewrite T, H. auto 10.
  - exists conn, cur, s1, s2, s3, cells, ([manager.EvConnect] ++ d)%list.
    rewrite T, H, <- app_assoc, executed_app. auto 10.
Qed.

End Introspection.

(** ** Witnesses and further properties of the nodes *)

(** X8. Calls and writes of the generator. One execution of the node
    calls the backend once, with the generation prompt for the schema
    and the question of the state, and calls neither the executor nor
    the scorer; it returns either a candidate or a non-empty error,
    never both, and writes no results, answer, round or score. *)
Theorem generator_writes_candidate_or_error (py : PyRepr) (ext : Backends)
  (st : AgentState) (w : World) :
  let r := generate_sql_node ext st w in
  u_results (fst r) = None /\ u_answer (fst r) = None
  /\ u_retry_count (fst r) = None /\ u_evaluation_score (fst r) = None
  /\ ((u_sql_query (fst r) <> None /\ u_error (fst r) = None)
      \/ (u_sql_query (fst r) = None /\ truthy (u_error (fst r)) = true))
  /\ llm_log (snd r)
     = (llm_log w ++ [GenerateSqlPrompt (schema st) (user_query st)])%list
  /\ db_log (snd r) = db_log w
  /\ scorer_log (snd r) = scorer_log w.
Proof. exact (generate_sql_node_frame ext st w). Qed.

(** X9. The formatter always answers. Whatever the state, its update
    carries an answer and writes no error, round, results, candidate or
    score; it calls the backend at most once and neither the executor
    nor the scorer; and when the state carries an error the answer is
    the error report and no call is made at all. *)
Theorem formatter_always_answers (py : PyRepr) (ext : Backends)
  (st : AgentState) (w : World) :
  let r := format_answer_node py ext st w in
  (u_answer (fst r) <> None
   /\ u_error (fst r) = None /\ u_retry_count (fst r) = None
   /\ u_results (fst r) = None /\ u_sql_query (fst r) = None
   /\ u_evaluation_score (fst r) = None
   /\ db_log (snd r) = db_log w /\ scorer_log (snd r) = scorer_log w
   /\ (forall e, error st = Some e -> e <> EmptyString ->
                 u_answer (fst r) = Some ("I encountered an error " ++ e)
                 /\ snd r = w))
  /\ exists prompts,
      llm_log (snd r) = (llm_log w ++ prompts)%list
      /\ List.length prompts <= 1.
Proof.
  split; [exact (format_answer_node_frame py ext st w)|].
  unfold format_answer_node.
  destruct (truthy (error st)); cbn [snd].
  { exists []. rewrite app_nil_r. auto. }
  destruct (results st) as [rs|]; cbn [snd].
  2: { exists []. rewrite app_nil_r. auto. }
  destruct (sql_query st) as [sql|]; cbn [snd].
  2: { exists []. rewrite app_nil_r. auto. }
  unfold invoke. destruct (llm ext _ _); cbn [snd llm_log];
    eexists; split; try reflexivity; cbn; lia.
Qed.

(** X3. Calls and writes of the execution node. One execution of the node
    makes at most two executor calls and at most one backend call, and
    never calls the scorer; with the budget exhausted it makes no backend
    call and at most one executor call. It never writes an answer or a
    score, counts at most one more round, and returns either a non-empty
    error or results, never both and never neither. *)
Theorem execute_sql_node_calls_and_writes (py : PyRepr) (ext : Backends)
  (st : AgentState) (w : World) :
  let r := execute_sql_node py ext st w in
  (u_answer (fst r) = None
   /\ u_evaluation_score (fst r) = None
   /\ (u_retry_count (fst r) = None
       \/ u_retry_count (fst r) = Some (retry_count st + 1))
   /\ ((truthy (u_error (fst r)) = true /\ u_results (fst r) = None)
       \/ (u_error (fst r) = None /\ u_results (fst r) <> None)))
  /\ scorer_log (snd r) = scorer_log w
  /\ (exists calls, db_log (snd r) = (db_log w ++ calls)%list
                    /\ List.length calls <= 2
                    /\ (2 <= retry_count st -> List.length calls <= 1))
  /\ (exists prompts, llm_log (snd r) = (llm_log w ++ prompts)%list
                      /\ List.length prompts <= 1
                      /\ (2 <= retry_count st -> prompts = [])).
Proof. exact (execute_sql_node_frame py ext st w). Qed.

(** X1. The cleanup of a completion never raises: when the trimmed text
    starts with a fence, [split(fence)[1]] exists, so a completion is
    never turned into a generation failure by the cleanup itself. *)
Theorem cleanup_never_raises (raw : string) :
  exists sql, clean_sql raw = Ok sql.
Proof. exact (clean_sql_total raw). Qed.

(** X2. What the cleanup returns is trimmed: every candidate the
    generator or the repair stores has no leading or trailing
    whitespace. *)
Theorem cleanup_result_trimmed (raw sql : string)
  (Hclean : clean_sql raw = Ok sql) :
  strip sql = sql.
Proof. exact (clean_sql_trimmed raw Hclean). Qed.

Lemma cleanup_result_trimmed_witness :
  strip "SELECT * FROM t" = "SELECT * FROM t".
Proof.
  apply (cleanup_result_trimmed
           ("```sql" ++ nl ++ "SELECT * FROM t" ++ nl ++ "```")).
  reflexivity.
Defined.

(** X7. The evaluator only scores. It never changes the error, the retry
    counter, the candidate, the results or the answer, and it calls
    neither the backend nor the executor; it calls the scorer at most
    once, and when the scorer raises no score is written. *)
Theorem evaluator_only_scores (py : PyRepr) (ext : Backends)
  (st : AgentState) (w : World) :
  let r := evaluate_node py ext st w in
  (u_error (fst r) = None /\ u_retry_count (fst r) = None
   /\ u_sql_query (fst r) = None /\ u_results (fst r) = None
   /\ u_answer (fst r) = None
   /\ llm_log (snd r) = llm_log w /\ db_log (snd r) = db_log w)
  /\ (exists samples,
         scorer_log (snd r) = (scorer_log w ++ samples)%list
         /\ List.length samples <= 1)
  /\ (forall sample msg,
         single_turn_score ext (List.length (scorer_log w)) sample
         = Raise msg ->
         scorer_log (snd r) = (scorer_log w ++ [sample])%list ->
         u_evaluation_score (fst r) = None).
Proof.
  split; [exact (evaluate_node_frame py ext st w)|].
  split; [exact (evaluate_node_scorer py ext st w)|].
  intros sample msg Hr. unfold evaluate_node, score.
  destruct (answer st) as [[|a s]|]; try reflexivity.
  destruct (sql_query st) as [[|b t]|]; try reflexivity.
  destruct (single_turn_score ext (List.length (scorer_log w))
              (make_sample py st (String a s) (String b t)))
    as [sc|m] eqn:E; cbn [fst snd scorer_log]; [|reflexivity].
  intros Hlog. apply app_inv_head in Hlog. inversion Hlog as [Hs].
  rewrite Hs in E. congruence.
Qed.

(** X4. The final path of the execution node stores a normalised result.
    When the first execution of a usable candidate succeeds, no backend
    call is made, the candidate is executed once, and the stored result
    has a count equal to its number of rows; when the executor returned
    no column names, it has no columns, no rows and a count of 0. *)
Theorem first_success_result_normalised (py : PyRepr) (ext : Backends)
  (st : AgentState) (w : World) (sql : string)
  (Hsql : sql_query st = Some sql)
  (Huse : usable sql)
  (Hok : success (execute_query ext (List.length (db_log w)) sql) = true) :
  let r := execute_query ext (List.length (db_log w)) sql in
  exists rs,
    u_results (fst (execute_sql_node py ext st w)) = Some rs
    /\ row_count rs = len (rows rs)
    /\ (res_columns r = None ->
        columns rs = Some [] /\ rows rs = Rows [] /\ row_count rs = 0)
    /\ (truthy_columns (res_columns r) = true ->
        rs = {| columns := res_columns r; rows := data r;
                row_count := len (data r) |})
    /\ llm_log (snd (execute_sql_node py ext st w)) = llm_log w
    /\ db_log (snd (execute_sql_node py ext st w)) = (db_log w ++ [sql])%list.
Proof.
  intros r. subst r.
  rewrite (execute_sql_node_first_success py ext st w Hsql Huse Hok).
  cbn [fst snd llm_log db_log].
  destruct (execute_query ext (List.length (db_log w)) sql)
    as [[sc d] cols] eqn:R.
  unfold success in Hok. cbn in Hok. subst sc.
  unfold conclude. cbn [u_results res_columns data].
  eexists. split; [reflexivity|]. cbn [row_count rows columns].
  unfold res_columns, data. cbn [fst snd].
  destruct (truthy_columns cols) eqn:T.
  - repeat match goal with |- _ /\ _ => split end; auto.
    intros ->. discriminate T.
  - repeat match goal with |- _ /\ _ => split end; auto.
    intros H. discriminate H.
Qed.

Lemma first_success_result_normalised_witness :
  exists rs,
    u_results (fst (execute_sql_node runs.py cases.happy
                      (runs.with_sql "SELECT COUNT(*) FROM students")
                      empty_world))
    = Some rs
    /\ row_count rs = len (rows rs).
Proof.
  assert (Huse : usable "SELECT COUNT(*) FROM students")
    by (split; [intros H; discriminate H | reflexivity]).
  destruct (@first_success_result_normalised runs.py cases.happy
              (runs.with_sql "SELECT COUNT(*) FROM students") empty_world
              "SELECT COUNT(*) FROM students"
              eq_refl Huse eq_refl) as (rs & H1 & H2 & _).
  exists rs. split; assumption.
Defined.

Lemma failed_repair_reports_repaired_failure_witness :
  u_sql_query (fst (execute_sql_node runs.py runs.always_failing
                      (runs.with_sql "SELECT nme FROM students")
                      empty_world))
  = None
  /\ u_retry_count (fst (execute_sql_node runs.py runs.always_failing
                           (runs.with_sql "SELECT nme FROM students")
                           empty_world))
     = Some 1.
Proof.
  assert (Huse : usable "SELECT nme FROM students")
    by (split; [intros H; discriminate H | reflexivity]).
  assert (Hrc : retry_count (runs.with_sql "SELECT nme FROM students") < 2)
    by (cbn; lia).
  destruct (@failed_repair_reports_repaired_failure runs.py
              runs.always_failing
              (runs.with_sql "SELECT nme FROM students") empty_world
              "SELECT nme FROM students" "SELECT nme FROM students"
              "SELECT nme FROM students"
              eq_refl Huse Hrc eq_refl eq_refl eq_refl eq_refl)
    as (_ & H2 & _ & H4).
  split; assumption.
Defined.

Lemma raised_repair_reports_original_failure_witness :
  db_log (snd (execute_sql_node runs.py cases.repair_down
                 (runs.with_sql "SELECT nme FROM students") empty_world))
  = ["SELECT nme FROM students"].
Proof.
  assert (Huse : usable "SELECT nme FROM students")
    by (split; [intros H; discriminate H | reflexivity]).
  assert (Hrc : retry_count (runs.with_sql "SELECT nme FROM students") < 2)
    by (cbn; lia).
  destruct (@raised_repair_reports_original_failure runs.py
              cases.repair_down
              (runs.with_sql "SELECT nme FROM students") empty_world
              "SELECT nme FROM students" "Connection error."
              eq_refl Huse Hrc eq_refl eq_refl)
    as (_ & _ & H3).
  exact H3.
Defined.

Lemma unexecutable_candidate_not_counted_witness :
  exists msg st',
    (msg = "No SQL to execute" \/ msg = "Unsafe SQL detected")
    /\ execute_sql_node runs.py cases.deleting
         (runs.with_sql "DELETE FROM students") empty_world
       = (error_update msg, empty_world)
    /\ merge (runs.with_sql "DELETE FROM students") (error_update msg)
       = Ok st'
    /\ check_execution st' = generate_sql.
Proof.
  destruct (@unexecutable_candidate_not_counted runs.py cases.deleting
              (runs.with_sql "DELETE FROM students") empty_world)
    as (msg & st' & Hm & X & M & _ & _ & _ & C).
  - reflexivity.
  - right. exists "DELETE FROM students". split; reflexivity.
  - exists msg, st'. split; [exact Hm|]. split; [exact X|].
    split; [exact M|]. apply C. cbn. lia.
Defined.

Lemma formatter_error_update_rejected_witness :
  merge runs.exhausted
    (fst (format_answer_node runs.py runs.always_failing runs.exhausted
            empty_world))
  = Raise unsupported_message.
Proof.
  apply (@formatter_error_update_rejected runs.py runs.always_failing
           runs.exhausted empty_world).
  reflexivity.
Defined.

Lemma failed_regeneration_reuses_candidate_witness :
  exists st' rest,
    merge cases.after_one_failure
      (fst (generate_sql_node runs.backend_down cases.after_one_failure
              empty_world))
    = Ok st'
    /\ sql_query st' = Some "SELECT nme FROM students"
    /\ db_log
         (snd (execute_sql_node runs.py runs.backend_down st'
                 (snd (generate_sql_node runs.backend_down
                         cases.after_one_failure empty_world))))
       = "SELECT nme FROM students" :: rest.
Proof.
  assert (Huse : usable "SELECT nme FROM students").
  { split; [intros H; discriminate H | reflexivity]. }
  destruct (@failed_regeneration_reuses_candidate runs.py runs.backend_down
              cases.after_one_failure empty_world
              "SELECT nme FROM students" "Connection error."
              eq_refl eq_refl Huse eq_refl)
    as (_ & _ & st' & M & Q & _ & _ & rest & X).
  exists st', rest. split; [exact M|]. split; [exact Q | exact X].
Defined.

(** ** Witnesses for the executor and the schema *)

Lemma execute_query_failure_shape_witness :
  exists msg,
    fst (manager.try_body cases.unreachable "SELECT 1"
           (upper (strip "SELECT 1"))
           (manager.ensure_connection cases.unreachable runs.fresh))
    = Raise msg
    /\ fst (manager.execute_query cases.unreachable "SELECT 1" runs.fresh)
       = (false, Text msg, None).
Proof.
  destruct (@execute_query_failure_shape _ _ _ cases.unreachable "SELECT 1"
              runs.fresh eq_refl) as (msg & H1 & H2).
  exists msg. split; [exact H1|].
  change (fst (manager.try_body cases.unreachable "SELECT 1"
                 (upper (strip "SELECT 1"))
                 (manager.ensure_connection cases.unreachable runs.fresh)))
    with (@Raise QueryResult "'NoneType' object has no attribute 'cursor'")
    in H1.
  inversion H1; subst msg. exact H2.
Defined.

Lemma execute_query_without_connection_witness :
  manager.execute_query cases.unreachable "SELECT 1" runs.fresh
  = ((false, Text "'NoneType' object has no attribute 'cursor'", None),
     {| manager.connection := None; manager.server := 0;
        manager.trace := [manager.EvConnect] |}).
Proof.
  apply (@execute_query_without_connection _ _ _ cases.unreachable
           "SELECT 1" runs.fresh "2003: Can't connect" 0);
    reflexivity.
Defined.

Lemma get_schema_statements_witness :
  exists cells d,
    manager.fetchall cases.catalogue tt 1
    = (Ok (map (fun v => [v]) cells), 1)
    /\ manager.trace
         (schema.env (snd (schema.get_schema cases.catalogue cases.str_cell
                             runs.str_tuple cases.new_manager)))
       = (manager.trace (schema.env cases.new_manager) ++ d)%list
    /\ schema.executed d
       = "SHOW TABLES"
         :: flat_map (fun v => [schema.describe_statement (cases.str_cell v);
                                schema.sample_statement (cases.str_cell v)])
              cells.
Proof.
  destruct (@get_schema_statements _ _ _ cases.catalogue cases.str_cell
              runs.str_tuple cases.new_manager)
    as (conn & cur & s1 & s2 & s3 & cells & d & _ & H2 & H3 & H4 & T & X).
  - vm_compute. intros H. discriminate H.
  - exists cells, d.
    cbn in H2. inversion H2; subst s1.
    cbn in H3. inversion H3; subst s2.
    destruct cur.
    assert (E : s3 = 1) by (cbn in H4; now inversion H4).
    subst s3. split; [exact H4|]. split; [exact T | exact X].
Defined.

(** ** The validator and the handler of a question *)

(** X24. Whitespace around the backend output does not matter to the
    validator: it gives the same verdict, and the same response text, for
    an output and for that output trimmed. *)
Theorem validate_query_ignores_padding (query output : string) :
  validator.validate_query query (fun _ => Ok output)
  = validator.validate_query query (fun _ => Ok (strip output)).
Proof.
  unfold validator.validate_query. now rewrite strip_idem.
Qed.

(** X12. Every node of the graph raises when it is called. Whatever the
    state, the callable registered for each of the four nodes raises
    [TypeError] for the parameter [llm] its node function requires and
    the registration does not pass, before the body of the node runs. *)
Theorem every_node_call_raises (py : PyRepr) (ext : Backends)
  (st : AgentState) (w : World) :
  step py ext {| node := generate_sql; cstate := st; world := w |}
  = Raise "generate_sql_node() missing 1 required positional argument: 'llm'"
  /\ step py ext {| node := execute_sql; cstate := st; world := w |}
     = Raise "execute_sql_node() missing 1 required positional argument: 'llm'"
  /\ step py ext {| node := format_answer; cstate := st; world := w |}
     = Raise "format_answer_node() missing 1 required positional argument: 'llm'"
  /\ step py ext {| node := evaluate; cstate := st; world := w |}
     = Raise "evaluate_node() missing 1 required positional argument: 'llm'".
Proof. repeat split. Qed.

(** X26. A question that passes the validator is never answered. When
    the question is not empty and the validator accepts it, or its call
    raises and it fails open, the handler streams the question through
    the graph, the stream raises at the first node, and what the user
    sees is the message of the [except] branch, whatever the backends
    and the database would have answered. *)
Theorem accepted_question_ends_in_error (py : PyRepr) (ext : Backends)
  (validator_llm : Prompt -> Res string) (limit : nat)
  (uq sch : string)
  (Hne : uq <> EmptyString)
  (Hval : fst (validator.validate_query uq validator_llm) = true
          \/ exists msg, validator_llm (ValidationPrompt uq) = Raise msg) :
  ui.on_execute py ext validator_llm (S limit) uq sch
  = ui.ErrorOccurred
      ("An error occurred: "
       ++ "generate_sql_node() missing 1 required positional argument: 'llm'").
Proof.
  assert (V : fst (validator.validate_query uq validator_llm) = true).
  { destruct Hval as [H|[msg H]]; [exact H|].
    unfold validator.validate_query. now rewrite H. }
  unfold ui.on_execute.
  destruct uq as [|a s]; [contradiction|].
  destruct (validator.validate_query (String a s) validator_llm)
    as [ok text].
  cbn [fst] in V. subst ok. cbn [negb].
  now rewrite stream_start.
Qed.

Lemma accepted_question_ends_in_error_witness :
  ui.on_execute runs.py cases.happy (fun _ => Ok "TRUE") 25
    runs.question runs.students
  = ui.ErrorOccurred
      ("An error occurred: "
       ++ "generate_sql_node() missing 1 required positional argument: 'llm'").
Proof.
  apply (@accepted_question_ends_in_error runs.py cases.happy
           (fun _ => Ok "TRUE") 24 runs.question runs.students).
  - intros H. discriminate H.
  - left. reflexivity.
Defined.

(** X19. Every success of [execute_query] has the shape of its class, also
    when it comes from the attempt made after a reconnection: rows and
    non-null column names for a statement that starts with a read
    keyword, the message [Query executed successfully] and no columns
    for any other statement. *)
Theorem successful_result_has_class_shape
  (Server Conn Cursor : Type) (drv : manager.Driver Server Conn Cursor)
  (query : string) (e0 : manager.Env Server Conn)
  (Hok : success (fst (manager.execute_query drv query e0)) = true) :
  if startswith_any (upper (strip query))
       ["SELECT"; "SHOW"; "DESCRIBE"; "DESC"; "EXPLAIN"]
  then exists rws cols,
      fst (manager.execute_query drv query e0) = (true, Rows rws, Some cols)
  else fst (manager.execute_query drv query e0)
       = (true, Text "Query executed successfully", None).
Proof. exact (execute_query_success_shape drv query e0 Hok). Qed.

Lemma successful_result_has_class_shape_witness :
  exists rws cols,
    fst (manager.execute_query runs.healthy "SELECT 1" runs.fresh)
    = (true, Rows rws, Some cols).
Proof.
  apply (@successful_result_has_class_shape _ _ _ runs.healthy "SELECT 1"
           runs.fresh).
  reflexivity.
Defined.
